(** * ReviewLens: the report stream client and the analysis guards

    A shallow embedding of the ReviewLens front end (the [useReportStream]
    hook, the report page, the home page and the chart components) and of
    the analysis guards the specification describes, with the properties
    the specification states about them.

    A JavaScript number is the rational ([Q]) or integer ([Z]) it
    denotes where it is stored, compared or rounded to an integer, and
    in the star rating of the score card; the percentages of the rating
    bars and the values of the radar chart, which depend on how a
    quotient or a product is rounded, are computed on binary64 doubles
    ([float]). A JavaScript string that is measured or cut is its
    sequence of UTF-16 code units. *)

From Stdlib Require Import Ascii QArith Qround Lqa Sorting.Sorted Sorting.Permutation.
From Stdlib Require Import Floats.
From stdpp Require Import gmap strings pretty list fin_maps.

Set Warnings "-register-all".

(* ===================================================================== *)
(** * Part I: the program                                                 *)
(* ===================================================================== *)

(** ** JavaScript helpers *)

Definition Qlt_bool (x y : Q) : bool := negb (Qle_bool y x).

(** A JavaScript string value is a sequence of UTF-16 code units:
    [length] counts them and [slice] cuts between them. Property names
    and fixed texts, which are only compared, stay Rocq strings. *)
Definition CodeUnits : Type := list N.

(** The code units of an ASCII literal. *)
Definition str (s : string) : CodeUnits :=
  (fun c => N.of_nat (nat_of_ascii c)) <$> String.list_ascii_of_string s.

(** A parsed JSON value. Objects keep their keys in [Object.keys] order. *)
Inductive JSON : Type :=
| JNull
| JBool (b : bool)
| JNum (q : Q)
| JStr (s : CodeUnits)
| JArr (l : list JSON)
| JObj (kv : list (string * JSON)).

(** [o[k]] on an association list: the first binding of [k]. *)
Fixpoint assoc {A} (k : string) (kv : list (string * A)) : option A :=
  match kv with
  | [] => None
  | (k', v) :: kv' => if String.eqb k k' then Some v else assoc k kv'
  end.

(** JavaScript truthiness of a value that may be [undefined] ([None]). *)
Definition truthy (v : option JSON) : bool :=
  match v with
  | None | Some JNull => false
  | Some (JBool b) => b
  | Some (JNum q) => negb (Qeq_bool q 0)
  | Some (JStr s) => match s with [] => false | _ :: _ => true end
  | Some (JArr _) | Some (JObj _) => true
  end.

(** [v?.k]: [undefined] unless [v] is an object that has the key. *)
Definition prop (k : string) (v : option JSON) : option JSON :=
  match v with
  | Some (JObj kv) => assoc k kv
  | _ => None
  end.

(** [v?.length ?? 0] for the values a report field can hold: arrays and
    strings have a length, everything else yields [undefined], hence 0. *)
Definition length_or_0 (v : option JSON) : nat :=
  match v with
  | Some (JArr l) => length l
  | Some (JStr s) => length s
  | _ => 0%nat
  end.

(** [Math.round]: the nearest integer, ties towards plus infinity. *)
Definition Math_round (x : Q) : Z := Qfloor (x + (1 # 2)).

(** Arithmetic whose result is rounded is carried out on the doubles
    themselves (binary64, round to nearest, ties to even). *)
Module Double.

(** 2^52: from here on every double is an integer. *)
Definition two52 : float := 4503599627370496%float.

(** [Math.floor]. Adding and taking away 2^52 leaves the nearest
    integer, which is then put right when it lies above [x]. *)
Definition Math_floor (x : float) : float :=
  if (abs x <? two52)%float then
    let n := if (0 <=? x)%float then (x + two52 - two52)%float
             else (x - two52 + two52)%float in
    if (x <? n)%float then (n - 1)%float else n
  else x.

(** [Math.round] on a double: the nearest integer, ties towards plus
    infinity; NaN, the infinities and the integers are returned as they
    are, and a zero result has the sign of [x]. *)
Definition Math_round (x : float) : float :=
  if (abs x <? two52)%float then
    let f := Math_floor x in
    let r := if (0.5 <=? x - f)%float then (f + 1)%float else f in
    if (r =? 0)%float then (x * 0)%float else r
  else x.

(** The double of a count or an array length. *)
Definition of_nat (n : nat) : float :=
  PrimFloat.of_uint63 (Uint63.of_Z (Z.of_nat n)).

End Double.

(** [Array.prototype.sort] with a comparator. The language fixes the
    result for a consistent comparator (a stable sort); it is computed
    here by stable insertion: [x] moves past [y] only when
    [cmp x y > 0]. *)
Fixpoint sort_insert {A} (cmp : A -> A -> Z) (x : A) (l : list A) : list A :=
  match l with
  | [] => [x]
  | y :: l' => if (0 <? cmp x y)%Z then y :: sort_insert cmp x l'
               else x :: y :: l'
  end.

Definition js_sort {A} (cmp : A -> A -> Z) (l : list A) : list A :=
  foldr (sort_insert cmp) [] l.

(** The code units [String.prototype.trim] strips: the white space of
    the language (tab, VT, FF, space, no-break space, the byte order mark
    and the Unicode space separators) and its line terminators (LF, CR,
    line separator, paragraph separator). *)
Definition is_ws (c : N) : bool :=
  ((9 <=? c) && (c <=? 13)          (* TAB, LF, VT, FF, CR *)
   || (c =? 32)                     (* space *)
   || (c =? 160)                    (* U+00A0 no-break space *)
   || (c =? 5760)                   (* U+1680 *)
   || (8192 <=? c) && (c <=? 8202)  (* U+2000 .. U+200A *)
   || (c =? 8232) || (c =? 8233)    (* U+2028, U+2029 *)
   || (c =? 8239)                   (* U+202F *)
   || (c =? 8287)                   (* U+205F *)
   || (c =? 12288)                  (* U+3000 *)
   || (c =? 65279))%N.              (* U+FEFF *)

Fixpoint drop_ws (l : CodeUnits) : CodeUnits :=
  match l with
  | c :: l' => if is_ws c then drop_ws l' else l
  | [] => []
  end.

(** [String.prototype.trim] *)
Definition trim (s : CodeUnits) : CodeUnits :=
  rev (drop_ws (rev (drop_ws s))).

(** A computation that may fail with an error code. *)
Inductive Result (A : Type) : Type :=
| Ok (a : A)
| Err (code : string).
Arguments Ok {A} a.
Arguments Err {A} code.

(** ** Fake-review detector (back end, section 4.5 of the specification) *)

Module FakeDetector.











End FakeDetector.

(** ** The report stream hook ([useReportStream]) *)

Module ReportStream.

Record ProgressEntry : Type := {
  message : string;
  step : Z;
  total_steps : Z;
  task : option string;
  status : option string
}.

(** The report held by the hook is a plain object filled by spreading. *)
Abbreviation ReportData := (gmap string JSON).

(** One server-sent frame, as [onmessage] sees it after [JSON.parse].
    An absent property is [None]. *)
Inductive Frame : Type :=
| FProgress (msg : option string) (stp tot : option Z)
            (tsk sts : option string)
| FPartial (data : option ReportData)
| FComplete (data : option ReportData)
| FCancelled
| FError (msg : option string)
| FOther       (* a "type" that no branch of the handler matches *)
| FMalformed.  (* [JSON.parse] throws; the [catch] ignores the frame *)

(** [readyState] of the [EventSource]. *)
Inductive ReadyState : Set := CONNECTING | OPEN | CLOSED.

Record State : Type := {
  report : option ReportData;
  progress : list ProgressEntry;
  isComplete : bool;
  isCancelled : bool;
  error : option string;
  esRef : option ReadyState   (* [esRef.current]; [None] is [null] *)
}.

Definition set_report (r : option ReportData) (st : State) : State :=
  {| report := r; progress := progress st; isComplete := isComplete st;
     isCancelled := isCancelled st; error := error st; esRef := esRef st |}.
Definition set_progress (p : list ProgressEntry) (st : State) : State :=
  {| report := report st; progress := p; isComplete := isComplete st;
     isCancelled := isCancelled st; error := error st; esRef := esRef st |}.
Definition set_isComplete (b : bool) (st : State) : State :=
  {| report := report st; progress := progress st; isComplete := b;
     isCancelled := isCancelled st; error := error st; esRef := esRef st |}.
Definition set_isCancelled (b : bool) (st : State) : State :=
  {| report := report st; progress := progress st; isComplete := isComplete st;
     isCancelled := b; error := error st; esRef := esRef st |}.
Definition set_error (e : option string) (st : State) : State :=
  {| report := report st; progress := progress st; isComplete := isComplete st;
     isCancelled := isCancelled st; error := e; esRef := esRef st |}.

(** [es.close()], and [esRef.current?.close()] when there is no source. *)
Definition close (st : State) : State :=
  {| report := report st; progress := progress st; isComplete := isComplete st;
     isCancelled := isCancelled st; error := error st;
     esRef := match esRef st with Some _ => Some CLOSED | None => None end |}.

(** The hook after its first render and effect: no source is opened for
    an empty [jobId]. *)
Definition mount (jobId : string) : State :=
  {| report := None; progress := []; isComplete := false;
     isCancelled := false; error := None;
     esRef := if String.eqb jobId "" then None else Some CONNECTING |}.

(** [s || d] on an optional string, [n || d] on an optional number. *)
Definition or_str (v : option string) (d : string) : string :=
  match v with
  | Some s => if String.eqb s "" then d else s
  | None => d
  end.
Definition or_num (v : option Z) (d : Z) : Z :=
  match v with
  | Some n => if (n =? 0)%Z then d else n
  | None => d
  end.

Definition entry_of (msg : option string) (stp tot : option Z)
    (tsk sts : option string) : ProgressEntry :=
  {| message := or_str msg ""; step := or_num stp 0;
     total_steps := or_num tot 8; task := tsk; status := sts |}.

(** [{ ...(prev ?? {}), ...data }]: the keys of [data] win. *)
Definition spread (prev data : option ReportData) : ReportData :=
  default ∅ data ∪ default ∅ prev.

Definition onmessage (st : State) (f : Frame) : State :=
  match f with
  | FProgress msg stp tot tsk sts =>
      set_progress (progress st ++ [entry_of msg stp tot tsk sts]) st
  | FPartial data => set_report (Some (spread (report st) data)) st
  | FComplete data => close (set_isComplete true (set_report data st))
  | FCancelled => close (set_isCancelled true st)
  | FError msg => close (set_error (Some (or_str msg "An error occurred")) st)
  | FOther | FMalformed => st
  end.

(** [onerror] reads the [isComplete] of the render that installed the
    effect, which is the initial [false]. *)
Definition closure_isComplete : bool := false.

Definition onerror (st : State) : State :=
  close (if negb closure_isComplete
         then set_error (Some "Connection to server lost. Please refresh.") st
         else st).

Inductive Event : Type :=
| Message (f : Frame)
| ConnError.

Definition is_open (st : State) : bool :=
  match esRef st with
  | Some CONNECTING | Some OPEN => true
  | Some CLOSED | None => false
  end.

(** The browser dispatches an event to the handlers only while
    [readyState] is not [CLOSED]. *)
Definition dispatch (st : State) (ev : Event) : State :=
  if is_open st then
    match ev with
    | Message f => onmessage st f
    | ConnError => onerror st
    end
  else st.

Definition run (st : State) (evs : list Event) : State :=
  fold_left dispatch evs st.

(** The frames that reached [onmessage] during a run, oldest first. *)
Fixpoint received (st : State) (evs : list Event) : list Frame :=
  match evs with
  | [] => []
  | ev :: evs' =>
      match ev with
      | Message f => if is_open st then f :: received (dispatch st ev) evs'
                     else received (dispatch st ev) evs'
      | ConnError => received (dispatch st ev) evs'
      end
  end.

Definition is_terminal (f : Frame) : bool :=
  match f with
  | FComplete _ | FCancelled | FError _ => true
  | _ => false
  end.

(** The progress entries carried by a sequence of frames. *)
Fixpoint entries (fs : list Frame) : list ProgressEntry :=
  match fs with
  | [] => []
  | FProgress msg stp tot tsk sts :: fs' =>
      entry_of msg stp tot tsk sts :: entries fs'
  | _ :: fs' => entries fs'
  end.

(** What one event adds to the progress list. *)
Definition appended (st : State) (ev : Event) : list ProgressEntry :=
  match ev with
  | Message f => if is_open st then entries [f] else []
  | ConnError => []
  end.

(** Outcome of the [fetch] to the cancel endpoint, and of an [async]
    function. *)
Inductive FetchOutcome : Set := FetchFulfilled | FetchRejected.
Inductive Settled : Set := Resolved | Threw.

Definition cancel (st : State) (net : FetchOutcome) : State * Settled :=
  let st' := set_isCancelled true (close st) in
  match net with
  | FetchFulfilled => (st', Resolved)
  | FetchRejected => (st', Resolved)   (* the [catch] swallows it *)
  end.

(** [latestMessage] of the [ProgressStream] component. *)
Definition latestMessage (progress : list ProgressEntry) : string :=
  match last progress with
  | Some p => message p
  | None => "Starting..."
  end.

End ReportStream.

(** ** Drift detector (back end, section 4.6 of the specification) *)

Module DriftDetector.

Inductive Trend : Set := improving | declining | stable.

Record Date : Type := { year : Z; month : Z; day : Z }.

(** A calendar month, as (year, month). *)
Definition Month : Type := (Z * Z)%type.

Definition month_of (d : Date) : Month := (year d, month d).

Definition month_compare (a b : Month) : comparison :=
  match (a.1 ?= b.1)%Z with
  | Eq => (a.2 ?= b.2)%Z
  | c => c
  end.

(** The fields of a normalized review the detector reads. *)
Record DatedReview : Type := {
  date : option Date;
  sentiment : Q
}.

Record DriftReport : Type := {
  monthly_sentiment : list (Month * Q);
  change_points : list Month;
  trend : Trend
}.

(** Modelled from the spec: the drift detector of the back end, whose
    code is missing. "bucket by calendar month, compute mean sentiment
    per bucket"; a bucket holds the sum and the number of its samples,
    and buckets are kept in calendar order. *)
Fixpoint add_sample (m : Month) (s : Q) (bs : list (Month * (Q * positive)))
    : list (Month * (Q * positive)) :=
  match bs with
  | [] => [(m, (s, 1%positive))]
  | (m', (sum, n)) :: bs' =>
      match month_compare m m' with
      | Lt => (m, (s, 1%positive)) :: bs
      | Eq => (m', ((sum + s)%Q, (n + 1)%positive)) :: bs'
      | Gt => (m', (sum, n)) :: add_sample m s bs'
      end
  end.

(** Modelled from the spec: the bucketing of the missing drift
    detector, over the "reviews with non-null dates". *)
Definition bucket_by_month (reviews : list DatedReview)
    : list (Month * (Q * positive)) :=
  fold_left (fun bs r =>
               match date r with
               | Some d => add_sample (month_of d) (sentiment r) bs
               | None => bs
               end) reviews [].

(** Modelled from the spec: the missing detector's "mean sentiment per
    bucket". *)
Definition monthly_means (bs : list (Month * (Q * positive)))
    : list (Month * Q) :=
  List.map (fun b => (b.1, (b.2.1 / inject_Z (Z.pos b.2.2))%Q)) bs.

(** Modelled from the spec: the mean the missing detector takes over a
    third of the series. *)
Definition mean (l : list Q) : Q :=
  (fold_right Qplus 0 l / inject_Z (Z.of_nat (length l)))%Q.

(** Modelled from the spec: the trend rule of the missing detector,
    "compare the mean of the earliest third of the series against the
    mean of the latest third; above a delta threshold =>
    improving/declining, else stable". *)
Definition classify (delta : Q) (series : list Q) : Trend :=
  let k := Nat.max 1 (length series / 3) in
  let early := mean (firstn k series) in
  let late := mean (skipn (length series - k) series) in
  if Qlt_bool delta (late - early) then improving
  else if Qlt_bool delta (early - late) then declining
  else stable.

Section Detect.

(** The change-point procedure (penalized segmentation over the
    monthly series); it yields indices into the series, or fails. *)
Variable changepoints : list Q -> option (list nat).
Variable delta : Q.

(** Modelled from the spec: the entry point of the missing drift
    detector. "Require at least 2 populated months; otherwise return an
    empty monthly list and trend stable without invoking the detection
    algorithm". *)
Definition detect_drift (reviews : list DatedReview) : Result DriftReport :=
  let monthly := monthly_means (bucket_by_month reviews) in
  if (length monthly <? 2)%nat then
    Ok {| monthly_sentiment := []; change_points := []; trend := stable |}
  else
    match changepoints (List.map snd monthly) with
    | None => Err "DriftDetectionError"
    | Some idx =>
        Ok {| monthly_sentiment := monthly;
              change_points :=
                omap (fun i => fst <$> monthly !! i) idx;
              trend := classify delta (List.map snd monthly) |}
    end.

End Detect.

End DriftDetector.

(** ** The [SentimentTimeline] component *)

Module SentimentTimeline.

Inductive Trend : Set := improving | declining | stable.

Record MonthData : Type := {
  month : string;
  avg_sentiment : Q
}.

Record Props : Type := {
  monthly : list MonthData;
  changePoints : list string;
  trend : Trend
}.

(** What the component returns. *)
Inductive View : Type :=
| NotEnoughData                        (* "Not enough data for timeline" *)
| Chart (badge : Trend) (change_point_note : option nat).

(** What the effect draws into the [svg], in order. A point is a parsed
    date (milliseconds) and a value. *)
Inductive DrawOp : Type :=
| Clear
| Grid
| Area (data : list (Z * Q))
| Line (data : list (Z * Q))
| Dots (data : list (Z * Q))
| ChangeLine (at_date : Z)
| ChangeLabel (at_date : Z)
| AxisBottom (ticks_asked : nat)   (* [.ticks(n)]: d3 picks the ticks,
                                     about [n] of them *)
| AxisLeft.

Definition render (p : Props) : View :=
  if (length (monthly p) <? 2)%nat then NotEnoughData
  else Chart (trend p)
             (if (0 <? length (changePoints p))%nat
              then Some (length (changePoints p)) else None).

(** [svgRef.current] is set exactly when the [svg] element is rendered. *)
Definition has_svg (v : View) : bool :=
  match v with
  | NotEnoughData => false
  | Chart _ _ => true
  end.

Section Effect.

(** [d3.timeParse("%Y-%m")]: a date in milliseconds, or [null]. *)
Variable parseMonth : string -> option Z.

Definition parsed_data (p : Props) : list (Z * Q) :=
  js_sort (fun a b => (a.1 - b.1)%Z)
    (omap (fun d => (fun t => (t, avg_sentiment d)) <$> parseMonth (month d))
          (monthly p)).

Definition change_marks (data : list (Z * Q)) (cps : list string)
    : list DrawOp :=
  flat_map
    (fun cp =>
       match head data, last data with
       | Some lo, Some hi =>
           if ((lo.1 <=? cp) && (cp <=? hi.1))%Z
           then [ChangeLine cp; ChangeLabel cp] else []
       | _, _ => []
       end)
    (omap parseMonth cps).

Definition effect (svg : bool) (p : Props) : list DrawOp :=
  if negb svg || (length (monthly p) <? 2)%nat then []
  else
    let data := parsed_data p in
    [Clear; Grid; Area data; Line data; Dots data]
    ++ change_marks data (changePoints p)
    ++ [AxisBottom (Nat.min (length data) 6); AxisLeft].

(** One render followed by its effect. *)
Definition SentimentTimeline (p : Props) : View * list DrawOp :=
  let v := render p in (v, effect (has_svg v) p).

End Effect.

End SentimentTimeline.

(** ** Theme clusterer (back end, section 4.7 of the specification) *)

Module ClusterSentiment.
Inductive t : Set := positive | negative | mixed.
End ClusterSentiment.

Record Cluster : Type := {
  cluster_id : Z;
  theme : string;
  review_count : Z;
  sentiment : ClusterSentiment.t;
  top_quotes : list CodeUnits
}.

Module ThemeClusterer.

Section Clusterer.

(** Embedding, reduction, density clustering and labelling: the part
    that calls the inference service and may fail. *)
Variable pipeline : list string -> Result (list Cluster).

(** Modelled from the spec: the input guard of the back end's theme
    clusterer, whose code is missing; "fewer than ~10 reviews", and the
    README has "Requires at least 10 reviews". *)
Definition min_reviews : nat := 10.

(** Modelled from the spec: the entry point of the missing clusterer.
    "fewer than ~10 reviews => skip clustering entirely, return an
    empty cluster list (not an error)". *)
Definition cluster_reviews (texts : list string) : Result (list Cluster) :=
  if (length texts <? min_reviews)%nat then Ok []
  else pipeline texts.

End Clusterer.

End ThemeClusterer.

(** ** The report page ([ReportPage]) *)

Module ReportPage.

Abbreviation ReportData := (gmap string JSON).

(** A request to [POST /api/analyze]. *)
Record AnalyzeRequest : Type := {
  query : JSON;
  use_cache : bool
}.

(** [handleRefresh]: the request it sends, if it sends one. *)
Definition handleRefresh (report : option ReportData) (isRefreshing : bool)
    : option AnalyzeRequest :=
  let product_name := report ≫= (.!! "product_name") in
  if negb (truthy product_name) || isRefreshing then None
  else Some {| query := default JNull product_name; use_cache := false |}.

Inductive PageSection : Set :=
| ScoreCardS
| AspectScoresS
| SentimentOverTimeS
| RatingDistributionS
| ReviewThemesS
| FeaturedReviewsS
| VerdictS.

Inductive View : Type :=
| AnalysisStopped
| AnalysisFailed (msg : string)
| Page (refresh_button progress_panel : bool) (sections : list PageSection)
| RenderError.

Definition when (b : bool) (s : PageSection) : list PageSection :=
  if b then [s] else [].

(** The sections under "Results render as data arrives". *)
Definition sections_of (r : ReportData) : list PageSection :=
  [ScoreCardS]
  ++ when (0 <? length_or_0 (r !! "aspect_scores"))%nat AspectScoresS
  ++ when (1 <? length_or_0 (prop "monthly_sentiment" (r !! "drift_report")))%nat
          SentimentOverTimeS
  ++ when (truthy (r !! "rating_distribution")) RatingDistributionS
  ++ when (0 <? length_or_0 (r !! "clusters"))%nat ReviewThemesS
  ++ when (0 <? length_or_0 (r !! "featured_reviews"))%nat FeaturedReviewsS
  ++ [VerdictS].

(** [if (error)]: a non-empty message. *)
Definition shown_error (e : option string) : option string :=
  match e with
  | Some msg => if String.eqb msg "" then None else Some msg
  | None => None
  end.

(** React throws on a plain object given as a child; it renders the
    elements of an array, and nothing for [null], [undefined] and
    booleans. *)
Fixpoint valid_child (v : JSON) : bool :=
  match v with
  | JObj _ => false
  | JArr l => List.forallb valid_child l
  | _ => true
  end.

Definition valid_child_opt (v : option JSON) : bool :=
  from_option valid_child true v.

Definition is_string (v : option JSON) : bool :=
  match v with
  | Some (JStr _) => true
  | _ => false
  end.

(** What the page itself evaluates on a report: [product_name] and
    [total_reviews_analyzed] given as children, and
    [(report.sources_used || []).join(", ")], which throws on a truthy
    value that is not an array. *)
Definition header_renders (r : ReportData) : bool :=
  valid_child_opt (r !! "product_name")
  && valid_child_opt (r !! "total_reviews_analyzed")
  && match r !! "sources_used" with
     | Some (JArr _) => true
     | v => negb (truthy v)
     end.

(** [VerdictSection] calls [split] on [executive_summary],
    [who_should_buy] and [who_should_skip], so it throws unless the
    three are strings; [overall_score] and [verdict] are given as
    children. *)
Definition verdict_renders (r : ReportData) : bool :=
  is_string (r !! "executive_summary")
  && is_string (r !! "who_should_buy")
  && is_string (r !! "who_should_skip")
  && valid_child_opt (r !! "overall_score")
  && valid_child_opt (r !! "verdict").

Section Render.

(** Whether the component of a section renders the report without
    throwing. The score card, the charts and the review cards are taken
    as they come; [VerdictSection] is the one above. *)
Variable renders : PageSection -> ReportData -> bool.

Definition section_renders (r : ReportData) (s : PageSection) : bool :=
  match s with
  | VerdictS => verdict_renders r
  | _ => renders s r
  end.

(** A component that throws while rendering takes the page down with
    it: [RenderError]. *)
Definition render (st : ReportStream.State) : View :=
  if ReportStream.isCancelled st then AnalysisStopped
  else
    match shown_error (ReportStream.error st) with
    | Some msg => AnalysisFailed msg
    | None =>
        match ReportStream.report st with
        | None => Page false (negb (ReportStream.isComplete st)) []
        | Some r =>
            if header_renders r && List.forallb (section_renders r) (sections_of r)
            then Page (ReportStream.isComplete st)
                      (negb (ReportStream.isComplete st)) (sections_of r)
            else RenderError
        end
    end.

End Render.

End ReportPage.

(** ** The home page ([HomePage]) *)

Module HomePage.

Record State : Type := {
  loading : bool;
  error : option string;
  searchHistory : list CodeUnits
}.

(** [[trimmed, ...searchHistory.filter(item => item !== trimmed)].slice(0, 15)] *)
Definition updatedHistory (trimmed : CodeUnits) (history : list CodeUnits)
    : list CodeUnits :=
  take 15 (trimmed
           :: List.filter (fun item => negb (bool_decide (item = trimmed))) history).

(** [handleSubmit] up to its [fetch]: the new state and the request it
    sends, if it sends one. *)
Definition handleSubmit (st : State) (q : CodeUnits)
    : State * option ReportPage.AnalyzeRequest :=
  let trimmed := trim q in
  if bool_decide (trimmed = []) then (st, None)
  else
    ({| loading := true; error := None;
        searchHistory := updatedHistory trimmed (searchHistory st) |},
     Some {| ReportPage.query := JStr trimmed; ReportPage.use_cache := true |}).

End HomePage.

(** ** Report cache of the orchestrator (back end, section 4.1) *)

Module Orchestrator.

Inductive Start (R : Type) : Type :=
| CacheHit (cached : R)
| RunPipeline.
Arguments CacheHit {R} cached.
Arguments RunPipeline {R}.

Section Cache.

Variable R : Type.
(** Normalization of the query into the cache key. *)
Variable normalize : JSON -> string.

(** Modelled from the spec: the report cache of the back end's
    orchestrator, whose code is missing. "Cache TTL for a completed
    report: 24 hours from creation". *)
Definition ttl_seconds : Z := 24 * 60 * 60.

(** Modelled from the spec: the start of a job in the missing
    orchestrator. "If use_cache is true and a non-expired cached Report
    exists for the normalized query, the orchestrator short-circuits
    directly to COMPLETE with the cached Report". The cache maps a key
    to the creation time and the report. *)
Definition submit (cache : gmap string (Z * R)) (now : Z)
    (req : ReportPage.AnalyzeRequest) : Start R :=
  if ReportPage.use_cache req then
    match cache !! normalize (ReportPage.query req) with
    | Some (created, rep) =>
        if (now - created <? ttl_seconds)%Z then CacheHit rep
        else RunPipeline
    | None => RunPipeline
    end
  else RunPipeline.

End Cache.

End Orchestrator.

(** ** The [ThemeClusters] component *)

Module ThemeClusters.

(** Arrays live in a store and are passed by reference. *)
Abbreviation Store := (gmap nat (list Cluster)).

Record Card : Type := {
  key : Z;
  title : string;
  badge : ClusterSentiment.t;
  count_label : string;
  quotes : list CodeUnits
}.

(** [b.review_count - a.review_count] *)
Definition by_review_count_desc (a b : Cluster) : Z :=
  (review_count b - review_count a)%Z.

(** [quote.length > 150 ? quote.slice(0, 147) + "..." : quote] *)
Definition shorten (quote : CodeUnits) : CodeUnits :=
  if (150 <? length quote)%nat
  then take 147 quote ++ str "..." else quote.

Definition card_of (c : Cluster) : Card :=
  {| key := cluster_id c;
     title := theme c;
     badge := sentiment c;
     count_label := pretty (review_count c) +:+ " review"
                    +:+ (if (review_count c =? 1)%Z then "" else "s");
     quotes := shorten <$> take 2 (top_quotes c) |}.

(** [a] may be shown before [b]: it has at least as many reviews. *)
Definition at_least (a b : Cluster) : Prop :=
  (review_count b <= review_count a)%Z.

(** [[...clusters]] allocates a new array; [sort] then works in place
    on that array. The component returns the cards it renders and
    leaves the store as the caller sees it afterwards. *)
Definition ThemeClusters (h : Store) (clusters : nat) : Store * list Card :=
  let copy := fresh (dom h) in
  let h1 := <[copy := default [] (h !! clusters)]> h in
  let h2 := <[copy := js_sort by_review_count_desc (default [] (h1 !! copy))]> h1 in
  (h2, card_of <$> default [] (h2 !! copy)).

End ThemeClusters.

(** ** The [RatingDistribution] component *)

Module RatingDistribution.

(** A value together with the divisors of the divisions that were
    carried out to compute it, oldest first. *)
Definition Logged (A : Type) : Type := (A * list float)%type.

Definition ret {A} (a : A) : Logged A := (a, []).
Definition bind {A B} (m : Logged A) (f : A -> Logged B) : Logged B :=
  let r := f m.1 in (r.1, m.2 ++ r.2).

(** [a / b] *)
Definition js_div (a b : float) : Logged float := ((a / b)%float, [b]).

Fixpoint mapM {A B} (f : A -> Logged B) (l : list A) : Logged (list B) :=
  match l with
  | [] => ret []
  | x :: l' => bind (f x) (fun y => bind (mapM f l') (fun ys => ret (y :: ys)))
  end.

Record Row : Type := {
  star : Z;
  count : float;
  pct : float
}.

Inductive View : Type :=
| NoRatings                           (* "No star ratings available" *)
| Bars (rows : list Row) (total : float).

(** [Object.values(distribution).reduce((s, n) => s + n, 0)]; the record
    is given by its entries in the order [Object.values] lists them. *)
Definition total_of (distribution : list (string * float)) : float :=
  fold_left (fun s n => (s + n)%float) distribution.*2 0%float.

(** [distribution[String(star)] ?? 0] *)
Definition count_of (distribution : list (string * float)) (star : Z)
    : float :=
  default 0%float (assoc (pretty star) distribution).

(** The body of the [map] over the stars:
    [Math.round((count / total) * 100)]. *)
Definition row_of (distribution : list (string * float)) (total : float)
    (star : Z) : Logged Row :=
  let count := count_of distribution star in
  bind (js_div count total) (fun q =>
    ret {| star := star; count := count;
           pct := Double.Math_round (q * 100) |}).

Definition RatingDistribution (distribution : list (string * float))
    : Logged View :=
  let total := total_of distribution in
  if (total =? 0)%float then ret NoRatings
  else bind (mapM (row_of distribution total) [5; 4; 3; 2; 1]%Z)
            (fun rows => ret (Bars rows total)).

End RatingDistribution.

(** ** The [RatingDistribution] component over exact rationals

    The same component with every number read as the rational it
    denotes and the sum, the quotient and the product left unrounded. *)

Module RatingDistributionExact.

(** A value together with the divisors of the divisions that were
    carried out to compute it, oldest first. *)
Definition Logged (A : Type) : Type := (A * list Q)%type.

Definition ret {A} (a : A) : Logged A := (a, []).
Definition bind {A B} (m : Logged A) (f : A -> Logged B) : Logged B :=
  let r := f m.1 in (r.1, m.2 ++ r.2).

(** [a / b]; [None] stands for the [NaN] or infinity of a zero divisor. *)
Definition js_div (a b : Q) : Logged (option Q) :=
  (if Qeq_bool b 0 then None else Some (a / b)%Q, [b]).

Fixpoint mapM {A B} (f : A -> Logged B) (l : list A) : Logged (list B) :=
  match l with
  | [] => ret []
  | x :: l' => bind (f x) (fun y => bind (mapM f l') (fun ys => ret (y :: ys)))
  end.

Record Row : Type := {
  star : Z;
  count : Q;
  pct : option Z
}.

Inductive View : Type :=
| NoRatings                           (* "No star ratings available" *)
| Bars (rows : list Row) (total : Q).

(** [Object.values(distribution).reduce((s, n) => s + n, 0)] *)
Definition total_of (distribution : list (string * Q)) : Q :=
  fold_left (fun s n => (s + n)%Q) (List.map snd distribution) 0%Q.

(** [distribution[String(star)] ?? 0] *)
Definition count_of (distribution : list (string * Q)) (star : Z) : Q :=
  default 0%Q (assoc (pretty star) distribution).


Definition row_of (distribution : list (string * Q)) (total : Q) (star : Z)
    : Logged Row :=
  let count := count_of distribution star in
  bind (js_div count total) (fun q =>
    ret {| star := star; count := count;
           pct := (fun x => Math_round (x * 100)) <$> q |}).

Definition RatingDistribution (distribution : list (string * Q))
    : Logged View :=
  let total := total_of distribution in
  if Qeq_bool total 0 then ret NoRatings
  else bind (mapM (row_of distribution total) [5; 4; 3; 2; 1]%Z)
            (fun rows => ret (Bars rows total)).

End RatingDistributionExact.

(** ** Using the hook: events and the cancel button *)

Module HookActions.

Import ReportStream.

(** What can happen to a mounted hook: the browser delivers an event, or
    the page calls [cancel]. *)
Inductive Action : Type :=
| Deliver (ev : Event)
| Cancel (net : FetchOutcome).

Definition act (st : State) (a : Action) : State :=
  match a with
  | Deliver ev => dispatch st ev
  | Cancel net => (cancel st net).1
  end.

Definition acts (st : State) (l : list Action) : State :=
  fold_left act l st.

(** Frames on which [onmessage] takes no branch. *)
Definition ignorable (ev : Event) : bool :=
  match ev with
  | Message FOther | Message FMalformed => true
  | _ => false
  end.

End HookActions.

(** ** The [ProgressStream] component, task checklist *)

Module ProgressStream.

Import ReportStream.

Definition TASKS : list (string * string) :=
  [ ("enrichment", "Query Enrichment");
    ("scrape", "Scraping Data");
    ("analysis", "Analyzing Sentiment & Trends");
    ("synthesis", "Generating Report") ].

(** The object literal [newStatus] starts from. *)
Definition initialStatus : gmap string string :=
  <["enrichment" := "pending"]>
    (<["scrape" := "pending"]>
       (<["analysis" := "pending"]>
          (<["synthesis" := "pending"]> ∅))).

(** Names every object literal inherits from [Object.prototype]; the
    [in] operator finds them too. *)
Definition prototype_names : list string :=
  [ "constructor"; "__defineGetter__"; "__defineSetter__"; "hasOwnProperty";
    "__lookupGetter__"; "__lookupSetter__"; "isPrototypeOf";
    "propertyIsEnumerable"; "toString"; "valueOf"; "__proto__";
    "toLocaleString" ].

(** [task in newStatus] *)
Definition has_in (task : string) (m : gmap string string) : bool :=
  bool_decide (is_Some (m !! task)) || bool_decide (task ∈ prototype_names).

(** [newStatus[task] = status]; a string assigned to [__proto__] is
    dropped by the setter. *)
Definition assign (task status : string) (m : gmap string string)
    : gmap string string :=
  if String.eqb task "__proto__" then m else <[task := status]> m.

(** The body of the [forEach]:
    [if (task && (task in newStatus) && status) newStatus[task] = status]. *)
Definition apply_entry (m : gmap string string) (p : ProgressEntry)
    : gmap string string :=
  match task p, status p with
  | Some t, Some s =>
      if negb (String.eqb t "") && has_in t m && negb (String.eqb s "")
      then assign t s m else m
  | _, _ => m
  end.

Definition taskStatus (progress : list ProgressEntry) : gmap string string :=
  fold_left apply_entry progress initialStatus.

(** The statuses the entries carry for one task, oldest first. *)
Definition statuses_for (t : string) (progress : list ProgressEntry)
    : list string :=
  omap (fun p =>
          match task p, status p with
          | Some t', Some s =>
              if String.eqb t' t && negb (String.eqb s "") then Some s else None
          | _, _ => None
          end) progress.

End ProgressStream.

(** ** The [ProgressStream] component, numbered checklist *)

Module StepChecklist.

Import ReportStream.

Definition STEPS : list string :=
  [ "Query Enrichment"; "Scraping Sources"; "Cleaning Reviews";
    "Analyzing Sentiment"; "Detecting Fake Reviews"; "Analyzing Trends";
    "Clustering Themes"; "Generating Report" ].

(** [progress.length > 0 ? Math.max(...progress.map((p) => p.step)) : 0] *)
Definition maxStep (progress : list ProgressEntry) : Z :=
  match progress with
  | [] => 0%Z
  | p :: ps => fold_left Z.max (step <$> ps) (step p)
  end.

Inductive Mark : Set := Done | Active | Pending.

(** [isDone = maxStep > stepNum], [isActive = maxStep === stepNum]. *)
Definition mark (maxStep stepNum : Z) : Mark :=
  if (stepNum <? maxStep)%Z then Done
  else if (maxStep =? stepNum)%Z then Active
  else Pending.

(** The checklist: each step with its mark; [stepNum = i + 1]. *)
Definition checklist (progress : list ProgressEntry) : list (string * Mark) :=
  imap (fun i s => (s, mark (maxStep progress) (Z.of_nat i + 1))) STEPS.

End StepChecklist.

(** ** The [ScoreCard] and [VerdictSection] components *)

Module ScoreCard.

Inductive Star : Set := Full | Half | Empty.

(** [Math.floor((score / 10) * 5)] *)
Definition fullStars (score : Q) : Z := Qfloor (score / 10 * 5).

(** [(score / 10) * 5 - fullStars >= 0.5] *)
Definition hasHalf (score : Q) : bool :=
  Qle_bool (1 # 2) (score / 10 * 5 - inject_Z (fullStars score)).

Definition StarRating (score : Q) : list Star :=
  (fun i : Z =>
     if (i <? fullStars score)%Z then Full
     else if (i =? fullStars score)%Z && hasHalf score then Half
     else Empty) <$> [0; 1; 2; 3; 4]%Z.

Definition scoreColor (overall_score : Q) : string :=
  if Qle_bool 8 overall_score then "text-green-600"
  else if Qle_bool 6 overall_score then "text-blue-600"
  else if Qle_bool 4 overall_score then "text-yellow-600"
  else "text-red-600".

End ScoreCard.

Module VerdictSection.

Record ScoreDesc : Type := {
  label : string;
  color : string;
  bg : string
}.

Definition scoreDesc (overall_score : Q) : ScoreDesc :=
  if Qle_bool 8 overall_score then
    {| label := "Excellent"; color := "text-green-600";
       bg := "bg-green-50 border-green-200" |}
  else if Qle_bool (65 # 10) overall_score then
    {| label := "Good"; color := "text-blue-600";
       bg := "bg-blue-50 border-blue-200" |}
  else if Qle_bool 5 overall_score then
    {| label := "Average"; color := "text-yellow-600";
       bg := "bg-yellow-50 border-yellow-200" |}
  else
    {| label := "Below Average"; color := "text-red-600";
       bg := "bg-red-50 border-red-200" |}.

End VerdictSection.

(** ** The [FeaturedReviews] component *)

Module FeaturedReviews.

Record Review : Type := {
  id : string;
  source : string;
  text : CodeUnits;
  rating : option Q;
  date : option string;
  verified_purchase : bool;
  helpful_votes : Z;
  reviewer_id : option string;
  fake_score : Q
}.

(** [StarDisplay]: nothing for a [null] rating, else five stars of which
    star [i] is yellow when [i < Math.round(rating)]. *)
Definition StarDisplay (rating : option Q) : option (list bool) :=
  match rating with
  | None => None
  | Some r => Some ((fun i : Z => (i <? Math_round r)%Z) <$> [0; 1; 2; 3; 4]%Z)
  end.

(** [review.text.length > 250] *)
Definition isLong (text : CodeUnits) : bool := (250 <? length text)%nat.

(** [expanded || !isLong ? text : text.slice(0, 250) + "..."] *)
Definition displayText (expanded : bool) (text : CodeUnits) : CodeUnits :=
  if expanded || negb (isLong text) then text
  else take 250 text ++ str "...".

(** The toggle button, shown only for a long text. *)
Definition toggle (expanded : bool) (text : CodeUnits) : option string :=
  if isLong text then Some (if expanded then "Show less" else "Read more")
  else None.

End FeaturedReviews.

(** ** The [RatingDistribution] component, from the reviews *)

Module RatingDistributionV1.

Import FeaturedReviews.

(** The object literal [distribution] starts from: a (real, fake) pair
    of counters for each star. *)
Definition initialDistribution : gmap Z (nat * nat) :=
  <[5%Z := (0, 0)%nat]>
    (<[4%Z := (0, 0)%nat]>
       (<[3%Z := (0, 0)%nat]>
          (<[2%Z := (0, 0)%nat]>
             (<[1%Z := (0, 0)%nat]> ∅)))).

(** [reviews.filter((r) => r.rating !== null)] *)
Definition ratedReviews (reviews : list Review) : list Review :=
  List.filter (fun r => match rating r with Some _ => true | None => false end)
    reviews.

(** [distribution[star].fake++] or [distribution[star].real++] *)
Definition bump (fake : bool) (c : nat * nat) : nat * nat :=
  if fake then (c.1, S c.2) else (S c.1, c.2).

(** The body of the loop over the rated reviews. *)
Definition count_review (fakeSet : gset string) (d : gmap Z (nat * nat))
    (r : Review) : gmap Z (nat * nat) :=
  match rating r with
  | Some q =>
      let star := Math_round q in
      if ((1 <=? star) && (star <=? 5))%Z
      then alter (bump (bool_decide (id r ∈ fakeSet))) star d
      else d
  | None => d
  end.

Definition distribution_of (reviews : list Review) (fakeIds : list string)
    : gmap Z (nat * nat) :=
  fold_left (count_review (list_to_set fakeIds)) (ratedReviews reviews)
    initialDistribution.

Record Row : Type := {
  star : Z;
  real : nat;
  fake : nat;
  total : nat;
  pct : float
}.

Inductive View : Type :=
| NoRatings                           (* "No star ratings available" *)
| Bars (rows : list Row).

Definition row_of (d : gmap Z (nat * nat)) (total : nat) (star : Z) : Row :=
  let c := default (0, 0)%nat (d !! star) in
  {| star := star; real := c.1; fake := c.2; total := (c.1 + c.2)%nat;
     pct := Double.Math_round
              (Double.of_nat (c.1 + c.2) / Double.of_nat total * 100) |}.

Definition RatingDistribution (reviews : list Review) (fakeIds : list string)
    : View :=
  let d := distribution_of reviews fakeIds in
  let total := length (ratedReviews reviews) in
  if (total =? 0)%nat then NoRatings
  else Bars (row_of d total <$> [5; 4; 3; 2; 1]%Z).

(** Whether a review lands in the bar of a star. *)
Definition in_bar (star : Z) (r : Review) : bool :=
  match rating r with
  | Some q => (Math_round q =? star)%Z
  | None => false
  end.

End RatingDistributionV1.

(** ** The [RadarChart] component *)

Module RadarChart.

Record AspectScore : Type := {
  aspect : string;
  sentiment : string;
  score : float;
  representative_quote : string;
  mention_count : Z
}.

Definition RADAR_ASPECTS : list string :=
  [ "performance"; "value for money"; "build quality"; "ease of use";
    "design"; "customer support" ].

(** [toUpperCase] and [toLowerCase] on ASCII letters. *)
Definition upper (c : ascii) : ascii :=
  let n := nat_of_ascii c in
  if ((97 <=? n) && (n <=? 122))%nat then ascii_of_nat (n - 32) else c.
Definition lower (c : ascii) : ascii :=
  let n := nat_of_ascii c in
  if ((65 <=? n) && (n <=? 90))%nat then ascii_of_nat (n + 32) else c.

Fixpoint toLowerCase (s : string) : string :=
  match s with
  | EmptyString => EmptyString
  | String c s' => String (lower c) (toLowerCase s')
  end.

(** [w.charAt(0).toUpperCase() + w.slice(1)] *)
Definition capitalize (w : string) : string :=
  match w with
  | EmptyString => EmptyString
  | String c w' => String (upper c) w'
  end.

(** [s.split(" ")]: [cur] is the word read so far, reversed. *)
Fixpoint split_aux (cur : list ascii) (s : string) : list string :=
  match s with
  | EmptyString => [String.string_of_list_ascii (rev cur)]
  | String c s' =>
      if Ascii.eqb c " "%char
      then String.string_of_list_ascii (rev cur) :: split_aux [] s'
      else split_aux (c :: cur) s'
  end.
Definition split_space (s : string) : list string := split_aux [] s.

(** [l.join(" ")] *)
Fixpoint join_space (l : list string) : string :=
  match l with
  | [] => ""
  | [w] => w
  | w :: l' => w +:+ " " +:+ join_space l'
  end.

Record Point : Type := {
  label : string;
  value : float;
  fullMark : Z
}.

Definition point_of (a : AspectScore) : Point :=
  {| label := join_space (capitalize <$> split_space (aspect a));
     value := Double.Math_round (score a * 100);
     fullMark := 100 |}.

Inductive View : Type :=
| NotEnoughAspects            (* "Not enough aspect data for radar chart" *)
| Chart (data : list Point).

Definition filtered (aspects : list AspectScore) : list AspectScore :=
  List.filter
    (fun a => (3 <? mention_count a)%Z
              && bool_decide (toLowerCase (aspect a) ∈ RADAR_ASPECTS))
    aspects.

Definition fallback (aspects : list AspectScore) : list AspectScore :=
  take 8 (List.filter (fun a => (0 <? mention_count a)%Z) aspects).

Definition RadarChart (aspects : list AspectScore) : View :=
  if (length (filtered aspects) <? 3)%nat
     && (length (fallback aspects) <? 2)%nat
  then NotEnoughAspects
  else Chart (point_of <$>
                (if (3 <=? length (filtered aspects))%nat
                 then filtered aspects else take 8 aspects)).

End RadarChart.

(* ===================================================================== *)
(** * Part II: properties                                                 *)
(* ===================================================================== *)

(** ** Comparisons on rationals *)



(** ** Fake-review detector *)

Section FakeDetectorFacts.
Import FakeDetector.









End FakeDetectorFacts.

(** ** The report stream hook *)

Section ReportStreamFacts.
Import ReportStream.

Lemma is_open_close (st : State) : is_open (close st) = false.
Proof. unfold is_open, close; simpl. now destruct (esRef st). Qed.

Lemma dispatch_closed (st : State) (ev : Event) :
  is_open st = false -> dispatch st ev = st.
Proof. intros H. unfold dispatch. now rewrite H. Qed.

Lemma run_closed (st : State) (evs : list Event) :
  is_open st = false -> run st evs = st.
Proof.
  intros H. unfold run. induction evs as [|ev evs IH]; simpl.
  - reflexivity.
  - now rewrite dispatch_closed.
Qed.

Lemma onmessage_terminal_closes (st : State) (f : Frame) :
  is_terminal f = true -> is_open (onmessage st f) = false.
Proof.
  destruct f; simpl; try discriminate; intros _; apply is_open_close.
Qed.

Lemma run_app (st : State) (evs1 evs2 : list Event) :
  run st (evs1 ++ evs2) = run (run st evs1) evs2.
Proof. unfold run. apply fold_left_app. Qed.

(** C2. A terminal frame (complete, cancelled or error) received on an
    open stream closes it, and whatever arrives afterwards leaves the
    whole client state (report, progress list, completion, cancellation
    and error) as the terminal frame left it. *)
Theorem terminal_frame_closes_stream (st : State) (f : Frame)
    (evs : list Event) :
  is_open st = true ->
  is_terminal f = true ->
  let st' := dispatch st (Message f) in
  is_open st' = false /\
  run st' evs = st' /\
  report (run st' evs) = report st' /\
  progress (run st' evs) = progress st' /\
  isComplete (run st' evs) = isComplete st' /\
  isCancelled (run st' evs) = isCancelled st' /\
  error (run st' evs) = error st'.
Proof.
  intros Hopen Hterm st'.
  assert (Hclosed : is_open st' = false).
  { subst st'. unfold dispatch. rewrite Hopen.
    now apply onmessage_terminal_closes. }
  rewrite (run_closed _ evs Hclosed). repeat split; exact Hclosed.
Qed.

Lemma terminal_frame_closes_stream_witness :
  let st' := dispatch (mount "job-1")
               (Message (FComplete (Some {[ "verdict" := JStr (str "Buy") ]}))) in
  is_open st' = false /\
  run st' [Message (FProgress (Some "late") None None None None);
           Message FCancelled; ConnError] = st'.
Proof.
  pose proof (terminal_frame_closes_stream (mount "job-1")
                (FComplete (Some {[ "verdict" := JStr (str "Buy") ]}))
                [Message (FProgress (Some "late") None None None None);
                 Message FCancelled; ConnError]
                eq_refl eq_refl) as H.
  split; [exact (proj1 H) | exact (proj1 (proj2 H))].
Defined.

(** C3. Cancelling never fails, whether or not the request to the back
    end fails: the job is marked cancelled, the stream is closed so that
    nothing received later changes the state, and a second cancel
    leaves that state as it is. *)
Theorem cancel_always_succeeds_idempotent (st : State)
    (net net' : FetchOutcome) (evs : list Event) :
  (cancel st net).2 = Resolved /\
  cancel st FetchRejected = cancel st FetchFulfilled /\
  isCancelled (cancel st net).1 = true /\
  is_open (cancel st net).1 = false /\
  run (cancel st net).1 evs = (cancel st net).1 /\
  cancel (cancel st net).1 net' = ((cancel st net).1, Resolved).
Proof.
  assert (Hclosed : is_open (cancel st net).1 = false).
  { destruct net; simpl; unfold is_open; simpl; now destruct (esRef st). }
  repeat split.
  - now destruct net.
  - now destruct net.
  - exact Hclosed.
  - now apply run_closed.
  - destruct net, net'; simpl; unfold set_isCancelled, close; simpl;
      now destruct (esRef st).
Qed.

Lemma lookup_spread_present (prev data : option ReportData) (k : string) :
  is_Some (default ∅ data !! k) ->
  spread prev data !! k = default ∅ data !! k.
Proof.
  intros [v Hv]. unfold spread. rewrite Hv.
  apply lookup_union_Some_raw. now left.
Qed.

Lemma lookup_spread_absent (prev data : option ReportData) (k : string) :
  default ∅ data !! k = None ->
  spread prev data !! k = default ∅ prev !! k.
Proof. intros H. unfold spread. now apply lookup_union_r. Qed.

(** C4. A partial frame updates exactly the report fields its data has
    and leaves every other field of the report, and the rest of the
    state, as it was; a complete frame replaces the report by its data,
    marks the job complete, and the state is frozen from then on. *)
Theorem report_filled_incrementally (st : State) (data : ReportData) :
  is_open st = true ->
  (let st' := dispatch st (Message (FPartial (Some data))) in
   exists r',
     report st' = Some r' /\
     (forall k, is_Some (data !! k) -> r' !! k = data !! k) /\
     (forall k, data !! k = None -> r' !! k = default ∅ (report st) !! k) /\
     progress st' = progress st /\ isComplete st' = isComplete st /\
     isCancelled st' = isCancelled st /\ error st' = error st /\
     is_open st' = true) /\
  (let st' := dispatch st (Message (FComplete (Some data))) in
   report st' = Some data /\ isComplete st' = true /\
   progress st' = progress st /\
   forall evs, run st' evs = st').
Proof.
  intros Hopen. unfold dispatch. rewrite Hopen. split.
  - simpl. exists (spread (report st) (Some data)).
    split; [reflexivity|].
    split; [intros k Hk; now apply lookup_spread_present|].
    split; [intros k Hk; now apply lookup_spread_absent|].
    repeat split. exact Hopen.
  - simpl. repeat split.
    intros evs. apply run_closed, is_open_close.
Qed.

Lemma report_filled_incrementally_witness :
  let st := dispatch (mount "job-1")
              (Message (FPartial (Some {[ "verdict" := JStr (str "Skip");
                                          "overall_score" := JNum 5 ]}))) in
  let st' := dispatch st (Message (FPartial (Some {[ "verdict" := JStr (str "Buy") ]}))) in
  exists r',
    report st' = Some r' /\
    r' !! "verdict" = Some (JStr (str "Buy")) /\
    r' !! "overall_score" = Some (JNum 5).
Proof.
  intros st st'.
  destruct (report_filled_incrementally st {[ "verdict" := JStr (str "Buy") ]} eq_refl)
    as [(r' & Hr & Hin & Hout & _) _].
  exists r'. split; [exact Hr|]. split.
  - rewrite Hin; [reflexivity | now eexists].
  - rewrite Hout; reflexivity.
Defined.

End ReportStreamFacts.

Section ProgressOrderFacts.
Import ReportStream.

Lemma progress_close (st : State) : progress (close st) = progress st.
Proof. reflexivity. Qed.

Lemma progress_dispatch (st : State) (ev : Event) :
  progress (dispatch st ev) = progress st ++ appended st ev.
Proof.
  unfold dispatch, appended.
  destruct (is_open st), ev as [f|]; simpl;
    try (now rewrite app_nil_r).
  destruct f; simpl; try (now rewrite app_nil_r). reflexivity.
Qed.

Lemma entries_app (fs1 fs2 : list Frame) :
  entries (fs1 ++ fs2) = entries fs1 ++ entries fs2.
Proof.
  induction fs1 as [|f fs1 IH]; simpl; [reflexivity|].
  destruct f; simpl; now rewrite ?IH.
Qed.

Lemma progress_run (st : State) (evs : list Event) :
  progress (run st evs) = progress st ++ entries (received st evs).
Proof.
  revert st. induction evs as [|ev evs IH]; intros st; simpl.
  - now rewrite app_nil_r.
  - change (run st (ev :: evs)) with (run (dispatch st ev) evs).
    rewrite IH, progress_dispatch, <- app_assoc. f_equal.
    unfold appended. destruct ev as [f|]; [|reflexivity].
    destruct (is_open st); [|reflexivity].
    change (f :: received (dispatch st (Message f)) evs)
      with ([f] ++ received (dispatch st (Message f)) evs).
    now rewrite entries_app.
Qed.

Lemma latestMessage_snoc (l : list ProgressEntry) (p : ProgressEntry) :
  latestMessage (l ++ [p]) = message p.
Proof. unfold latestMessage. now rewrite last_snoc. Qed.

(** C7. Progress entries are kept in arrival order: a progress frame
    received on an open stream is appended at the end of the list, no
    event removes or reorders an earlier entry, so after any run the
    list is the sequence of the progress frames received so far, and
    the latest message shown is that of the last progress frame
    received. *)
Theorem progress_kept_in_order (jobId : string) (st : State)
    (evs : list Event) (ev : Event)
    (msg : option string) (stp tot : option Z) (tsk sts : option string) :
  (is_open st = true ->
     progress (dispatch st (Message (FProgress msg stp tot tsk sts)))
     = progress st ++ [entry_of msg stp tot tsk sts]
     /\ latestMessage
          (progress (dispatch st (Message (FProgress msg stp tot tsk sts))))
        = or_str msg "") /\
  progress st `prefix_of` progress (dispatch st ev) /\
  progress (run (mount jobId) evs) = entries (received (mount jobId) evs) /\
  latestMessage (progress (run (mount jobId) evs))
  = from_option message "Starting..."
      (last (entries (received (mount jobId) evs))).
Proof.
  split; [|split; [|split]].
  - intros Hopen. rewrite progress_dispatch. unfold appended.
    rewrite Hopen. simpl. split; [reflexivity|].
    now rewrite latestMessage_snoc.
  - rewrite progress_dispatch. now eexists.
  - now rewrite progress_run.
  - rewrite progress_run. simpl. unfold latestMessage.
    now destruct (last _).
Qed.

Lemma progress_kept_in_order_witness :
  let st := dispatch (mount "job-1")
              (Message (FProgress (Some "Enriching query") (Some 1%Z)
                          None (Some "enrichment") (Some "running"))) in
  progress (dispatch st (Message (FProgress (Some "Scraping") (Some 2%Z)
                                    (Some 4%Z) (Some "scrape") None)))
  = progress st ++ [entry_of (Some "Scraping") (Some 2%Z) (Some 4%Z)
                      (Some "scrape") None]
  /\ latestMessage
       (progress (dispatch st (Message (FProgress (Some "Scraping") (Some 2%Z)
                                          (Some 4%Z) (Some "scrape") None))))
     = "Scraping".
Proof.
  intros st.
  exact (proj1 (progress_kept_in_order "job-1" st [] ConnError
                  (Some "Scraping") (Some 2%Z) (Some 4%Z) (Some "scrape") None)
           eq_refl).
Defined.

End ProgressOrderFacts.

(** ** Drift detector and sentiment timeline *)

Section DriftFacts.
Import DriftDetector.

Lemma month_compare_refl (m : Month) : month_compare m m = Eq.
Proof. unfold month_compare. now rewrite !Z.compare_refl. Qed.

(** Samples of one month never open a second bucket. *)
Lemma bucket_one_month_aux (m : Month) (reviews : list DatedReview)
    (bs : list (Month * (Q * positive))) :
  (forall r d, In r reviews -> date r = Some d -> month_of d = m) ->
  (bs = [] \/ exists x, bs = [(m, x)]) ->
  let bs' := fold_left (fun bs r =>
               match date r with
               | Some d => add_sample (month_of d) (sentiment r) bs
               | None => bs
               end) reviews bs in
  bs' = [] \/ exists x, bs' = [(m, x)].
Proof.
  revert bs. induction reviews as [|r reviews IH]; intros bs Hm Hbs; simpl.
  - exact Hbs.
  - apply IH.
    + intros r' d Hin. apply Hm. now right.
    + destruct (date r) as [d|] eqn:Hd; [|exact Hbs].
      rewrite (Hm r d (or_introl eq_refl) Hd).
      destruct Hbs as [-> | [[sum n] ->]]; simpl.
      * right. now eexists.
      * rewrite month_compare_refl. right. now eexists.
Qed.

Lemma bucket_one_month (m : Month) (reviews : list DatedReview) :
  (forall r d, In r reviews -> date r = Some d -> month_of d = m) ->
  (length (bucket_by_month reviews) < 2)%nat.
Proof.
  intros Hm.
  destruct (bucket_one_month_aux m reviews [] Hm (or_introl eq_refl))
    as [H | [x H]]; unfold bucket_by_month; rewrite H; simpl; lia.
Qed.

Lemma detect_drift_guard (changepoints : list Q -> option (list nat))
    (delta : Q) (reviews : list DatedReview) :
  (length (bucket_by_month reviews) < 2)%nat ->
  detect_drift changepoints delta reviews
  = Ok {| monthly_sentiment := []; change_points := []; trend := stable |}.
Proof.
  intros H. unfold detect_drift, monthly_means.
  rewrite length_map.
  apply Nat.ltb_lt in H. now rewrite H.
Qed.

End DriftFacts.

Section TimelineFacts.
Import SentimentTimeline.

(** C5. With fewer than 2 populated months (in particular when every
    dated review falls in one month) drift detection returns an empty
    monthly list and trend stable, whatever the change-point procedure
    would do; and the timeline component, given a monthly series
    shorter than 2, renders the fallback and draws nothing. *)
Theorem drift_and_timeline_below_two_months
    (changepoints : list Q -> option (list nat)) (delta : Q)
    (reviews : list DriftDetector.DatedReview)
    (parseMonth : string -> option Z) (p : Props) (svg : bool) :
  ((length (DriftDetector.bucket_by_month reviews) < 2)%nat ->
     DriftDetector.detect_drift changepoints delta reviews
     = Ok {| DriftDetector.monthly_sentiment := [];
             DriftDetector.change_points := [];
             DriftDetector.trend := DriftDetector.stable |}) /\
  (forall m,
     (forall r d, In r reviews -> DriftDetector.date r = Some d ->
                  DriftDetector.month_of d = m) ->
     DriftDetector.detect_drift changepoints delta reviews
     = Ok {| DriftDetector.monthly_sentiment := [];
             DriftDetector.change_points := [];
             DriftDetector.trend := DriftDetector.stable |}) /\
  ((length (monthly p) < 2)%nat ->
     SentimentTimeline parseMonth p = (NotEnoughData, [])
     /\ effect parseMonth svg p = []).
Proof.
  split; [apply detect_drift_guard|].
  split.
  - intros m Hm. apply detect_drift_guard. now apply (bucket_one_month m).
  - intros H. apply Nat.ltb_lt in H.
    unfold SentimentTimeline, render, effect.
    rewrite H. simpl. now rewrite orb_true_r.
Qed.

Lemma drift_and_timeline_below_two_months_witness :
  let reviews :=
    [ {| DriftDetector.date := Some {| DriftDetector.year := 2024;
                                       DriftDetector.month := 3;
                                       DriftDetector.day := 2 |};
         DriftDetector.sentiment := 8 # 10 |};
      {| DriftDetector.date := None; DriftDetector.sentiment := 1 # 10 |};
      {| DriftDetector.date := Some {| DriftDetector.year := 2024;
                                       DriftDetector.month := 3;
                                       DriftDetector.day := 28 |};
         DriftDetector.sentiment := 4 # 10 |} ] in
  let p := {| monthly := [ {| month := "2024-03"; avg_sentiment := 6 # 10 |} ];
              changePoints := []; trend := stable |} in
  DriftDetector.detect_drift (fun _ => None) (1 # 10) reviews
  = Ok {| DriftDetector.monthly_sentiment := [];
          DriftDetector.change_points := [];
          DriftDetector.trend := DriftDetector.stable |}
  /\ SentimentTimeline (fun _ => Some 0%Z) p = (NotEnoughData, []).
Proof.
  intros reviews p.
  pose proof (drift_and_timeline_below_two_months
                (fun _ => None) (1 # 10) reviews (fun _ => Some 0%Z) p true)
    as (Hd & _ & Ht).
  split.
  - apply Hd. vm_compute. lia.
  - apply Ht. simpl. lia.
Defined.

End TimelineFacts.

(** ** Theme clusterer and the report page *)

Section ReportPageFacts.
Import ReportPage.

Lemma themes_omitted (r : ReportData) :
  length_or_0 (r !! "clusters") = 0%nat -> ReviewThemesS ∉ sections_of r.
Proof.
  intros H. unfold sections_of, when. rewrite H. simpl.
  repeat match goal with |- context [if ?b then _ else _] => destruct b end;
    simpl; rewrite ?elem_of_cons, elem_of_nil; intuition discriminate.
Qed.

Lemma shown_error_Some (e : option string) (msg : string) :
  shown_error e = Some msg -> e = Some msg.
Proof.
  destruct e as [s|]; simpl; [|discriminate].
  destruct (String.eqb s ""); [discriminate|congruence].
Qed.

Lemma render_failed (renders : PageSection -> ReportData -> bool)
    (st : ReportStream.State) (msg : string) :
  render renders st = AnalysisFailed msg -> ReportStream.error st = Some msg.
Proof.
  unfold render. destruct (ReportStream.isCancelled st); [discriminate|].
  destruct (shown_error _) eqn:E.
  - intros [= <-]. now apply shown_error_Some.
  - destruct (ReportStream.report st) as [r|]; [|discriminate].
    destruct (_ && _); discriminate.
Qed.

Lemma forallb_agree {A} (f g : A -> bool) (l : list A) :
  (forall x, In x l -> f x = g x) -> List.forallb f l = List.forallb g l.
Proof.
  induction l as [|x l IH]; intros H; simpl; [reflexivity|].
  rewrite (H x (or_introl eq_refl)), IH; [reflexivity|].
  intros y Hy. apply H. now right.
Qed.

(** C6. Clustering 9 or fewer reviews returns an empty cluster list
    without running (or failing in) the pipeline; and a report whose
    cluster list is empty makes the page leave the themes section out:
    the themes component is not rendered at all, so whatever it would do
    has no effect on the page; the page shows its other sections
    whenever those render; and the failure screen appears only for an
    error received on the stream. *)
Theorem clustering_guard_and_themes_section
    (pipeline : list string -> Result (list Cluster)) (texts : list string)
    (renders renders' : PageSection -> ReportData -> bool)
    (st : ReportStream.State) (r : ReportData) :
  ((length texts <= 9)%nat ->
     ThemeClusterer.cluster_reviews pipeline texts = Ok []) /\
  (ReportStream.report st = Some r ->
   r !! "clusters" = Some (JArr []) ->
     (ReviewThemesS ∉ sections_of r) /\
     ((forall s, s <> ReviewThemesS -> renders s r = renders' s r) ->
        render renders st = render renders' st) /\
     (ReportStream.isCancelled st = false ->
      ReportStream.error st = None ->
      header_renders r = true ->
      (forall s, In s (sections_of r) -> section_renders renders r s = true) ->
        render renders st = Page (ReportStream.isComplete st)
                                 (negb (ReportStream.isComplete st))
                                 (sections_of r)) /\
     (forall msg, render renders st = AnalysisFailed msg ->
                  ReportStream.error st = Some msg)).
Proof.
  split.
  - intros H. unfold ThemeClusterer.cluster_reviews, ThemeClusterer.min_reviews.
    assert (Hlt : (length texts <? 10)%nat = true) by (apply Nat.ltb_lt; lia).
    now rewrite Hlt.
  - intros Hr Hc.
    assert (Hth : ReviewThemesS ∉ sections_of r)
      by (apply themes_omitted; now rewrite Hc).
    split; [exact Hth|]. split; [|split].
    + intros Hagree. unfold render. rewrite Hr.
      assert (Hf : List.forallb (section_renders renders r) (sections_of r)
                   = List.forallb (section_renders renders' r) (sections_of r));
        [|now rewrite Hf].
      apply forallb_agree.
      intros s Hs. unfold section_renders. destruct s; try reflexivity;
        apply Hagree; try discriminate.
      exfalso. apply Hth. now apply list_elem_of_In.
    + intros Hcan Herr Hhead Hall. unfold render.
      assert (Hf : List.forallb (section_renders renders r) (sections_of r) = true)
        by (apply forallb_forall; exact Hall).
      now rewrite Hcan, Herr, Hr, Hhead, Hf.
    + apply render_failed.
Qed.

Lemma clustering_guard_and_themes_section_witness :
  let renders := fun (s : PageSection) (_ : ReportData) =>
                   match s with ScoreCardS => true | _ => false end in
  let st := ReportStream.dispatch (ReportStream.mount "job-1")
              (ReportStream.Message
                 (ReportStream.FComplete
                    (Some {[ "product_name" := JStr (str "Kindle");
                             "clusters" := JArr [];
                             "executive_summary" := JStr (str "Solid reader.");
                             "who_should_buy" := JStr (str "- Readers");
                             "who_should_skip" := JStr (str "- Gamers") ]}))) in
  ThemeClusterer.cluster_reviews (fun _ => Err "InferenceTimeoutError")
    ["a"; "b"; "c"; "d"; "e"; "f"; "g"; "h"; "i"] = Ok []
  /\ render renders st = Page true false [ScoreCardS; VerdictS].
Proof.
  intros renders st.
  pose proof (clustering_guard_and_themes_section
                (fun _ => Err "InferenceTimeoutError")
                ["a"; "b"; "c"; "d"; "e"; "f"; "g"; "h"; "i"]
                renders renders st
                {[ "product_name" := JStr (str "Kindle");
                   "clusters" := JArr [];
                   "executive_summary" := JStr (str "Solid reader.");
                   "who_should_buy" := JStr (str "- Readers");
                   "who_should_skip" := JStr (str "- Gamers") ]})
    as [Hg Hp].
  split.
  - apply Hg. simpl. lia.
  - destruct (Hp eq_refl eq_refl) as (_ & _ & Hpage & _).
    rewrite Hpage; try reflexivity.
    intros s Hs. vm_compute in Hs.
    destruct Hs as [<- | [<- | []]]; reflexivity.
Defined.

(** C8. Every request the home page sends asks for [use_cache = true];
    every request the Refresh button sends asks for [use_cache = false]
    and carries the product name of the report on the page; and a
    request with [use_cache = false] is never answered from the report
    cache. *)
Theorem home_uses_cache_refresh_bypasses
    (hst hst' : HomePage.State) (q : CodeUnits)
    (report : option ReportData) (isRefreshing : bool)
    (req : AnalyzeRequest)
    (R : Type) (normalize : JSON -> string)
    (cache : gmap string (Z * R)) (now : Z) :
  (HomePage.handleSubmit hst q = (hst', Some req) ->
     use_cache req = true /\ query req = JStr (trim q)) /\
  (handleRefresh report isRefreshing = Some req ->
     use_cache req = false /\
     (report ≫= (.!! "product_name")) = Some (query req) /\
     Orchestrator.submit R normalize cache now req = Orchestrator.RunPipeline).
Proof.
  split.
  - unfold HomePage.handleSubmit.
    destruct (bool_decide (trim q = [])); [discriminate|].
    intros [= _ <-]. now split.
  - unfold handleRefresh.
    destruct (report ≫= (.!! "product_name")) as [v|] eqn:Hv;
      [|simpl; discriminate].
    destruct (negb (truthy (Some v)) || isRefreshing); [discriminate|].
    intros [= <-]. simpl. repeat split.
Qed.

Lemma home_uses_cache_refresh_bypasses_witness :
  let hst := {| HomePage.loading := false; HomePage.error := None;
                HomePage.searchHistory := [str "Kindle"] |} in
  let req := {| query := JStr (str "Sony WH-1000XM5"); use_cache := true |} in
  let req' := {| query := JStr (str "Sony WH-1000XM5"); use_cache := false |} in
  use_cache req = true
  /\ Orchestrator.submit ReportData (fun _ => "sony wh-1000xm5")
       {[ "sony wh-1000xm5" := (100%Z, ∅) ]} 200 req'
     = Orchestrator.RunPipeline.
Proof.
  intros hst req req'.
  pose proof (home_uses_cache_refresh_bypasses hst
                {| HomePage.loading := true; HomePage.error := None;
                   HomePage.searchHistory := [str "Sony WH-1000XM5"; str "Kindle"] |}
                (str "  Sony WH-1000XM5 ")
                (Some {[ "product_name" := JStr (str "Sony WH-1000XM5") ]}) false
                req ReportData (fun _ => "sony wh-1000xm5")
                {[ "sony wh-1000xm5" := (100%Z, ∅) ]} 200) as [Hs _].
  pose proof (home_uses_cache_refresh_bypasses hst hst []
                (Some {[ "product_name" := JStr (str "Sony WH-1000XM5") ]}) false
                req' ReportData (fun _ => "sony wh-1000xm5")
                {[ "sony wh-1000xm5" := (100%Z, ∅) ]} 200) as [_ Hr].
  split.
  - exact (proj1 (Hs eq_refl)).
  - exact (proj2 (proj2 (Hr eq_refl))).
Defined.

End ReportPageFacts.

(** ** Sorting *)

Section SortFacts.
Context {A : Type} (cmp : A -> A -> Z) (R : A -> A -> Prop).

Lemma sort_insert_perm (x : A) (l : list A) :
  Permutation (sort_insert cmp x l) (x :: l).
Proof.
  induction l as [|y l IH]; simpl; [reflexivity|].
  destruct (0 <? cmp x y)%Z; [|reflexivity].
  rewrite IH. apply perm_swap.
Qed.

Lemma js_sort_perm (l : list A) : Permutation (js_sort cmp l) l.
Proof.
  induction l as [|x l IH]; simpl; [reflexivity|].
  rewrite sort_insert_perm. now constructor.
Qed.

(** A comparator that orders by [R]: [cmp x y > 0] puts [y] first. *)
Hypothesis R_trans : forall x y z, R x y -> R y z -> R x z.
Hypothesis cmp_after : forall x y, (0 < cmp x y)%Z -> R y x.
Hypothesis cmp_before : forall x y, ~ (0 < cmp x y)%Z -> R x y.

Lemma sort_insert_sorted (x : A) (l : list A) :
  StronglySorted R l -> StronglySorted R (sort_insert cmp x l).
Proof.
  induction l as [|y l IH]; intros Hs; simpl.
  - repeat constructor.
  - inversion Hs as [|? ? Hl Hy]; subst.
    destruct (0 <? cmp x y)%Z eqn:E.
    + apply Z.ltb_lt in E. constructor; [now apply IH|].
      rewrite sort_insert_perm.
      constructor; [now apply cmp_after | exact Hy].
    + apply Z.ltb_ge in E.
      assert (Hxy : R x y) by (apply cmp_before; lia).
      constructor; [exact Hs|].
      constructor; [exact Hxy|].
      eapply Forall_impl; [exact Hy|].
      intros z Hz. simpl in Hz. eapply R_trans; eassumption.
Qed.

Lemma js_sort_sorted (l : list A) : StronglySorted R (js_sort cmp l).
Proof.
  induction l as [|x l IH]; simpl; [constructor|].
  now apply sort_insert_sorted.
Qed.

End SortFacts.

(** ** The theme cards *)

Section ThemeClustersFacts.
Import ThemeClusters.

Lemma sorted_by_review_count (l : list Cluster) :
  StronglySorted at_least (js_sort by_review_count_desc l).
Proof.
  apply js_sort_sorted; unfold at_least, by_review_count_desc; intros; lia.
Qed.

(** C9. The cards are those of the input clusters rearranged into
    non-increasing [review_count] order, and the array the caller
    passed, like every other array of the store, holds afterwards what
    it held before: the sort works on a copy. *)
Theorem theme_clusters_sorted_copy (h : Store) (clusters : nat)
    (arr : list Cluster) :
  h !! clusters = Some arr ->
  let out := ThemeClusters h clusters in
  exists shown,
    out.2 = (card_of <$> shown) /\
    Permutation shown arr /\
    StronglySorted at_least shown /\
    out.1 !! clusters = Some arr /\
    (forall l, is_Some (h !! l) -> out.1 !! l = h !! l).
Proof.
  intros Harr out. subst out. unfold ThemeClusters.
  set (copy := fresh (dom h)).
  assert (Hfresh : h !! copy = None).
  { apply not_elem_of_dom. apply is_fresh. }
  assert (Hne : copy <> clusters) by congruence.
  exists (js_sort by_review_count_desc arr). simpl.
  rewrite !lookup_insert_eq. simpl. rewrite Harr. simpl.
  split; [reflexivity|].
  split; [apply js_sort_perm|].
  split; [apply sorted_by_review_count|].
  split.
  - now rewrite !lookup_insert_ne.
  - intros l Hl. assert (copy <> l) by (intros ->; rewrite Hfresh in Hl; now destruct Hl).
    now rewrite !lookup_insert_ne.
Qed.

Lemma theme_clusters_sorted_copy_witness :
  let c := fun (i n : Z) =>
    {| cluster_id := i; theme := "battery"; review_count := n;
       sentiment := ClusterSentiment.mixed; top_quotes := [] |} in
  let h : Store := {[ 7%nat := [c 1 3; c 2 9; c 3 3; c 4 12]%Z ]} in
  exists shown,
    (ThemeClusters h 7).2 = (card_of <$> shown) /\
    Permutation shown [c 1 3; c 2 9; c 3 3; c 4 12]%Z /\
    (ThemeClusters h 7).1 !! 7%nat = Some [c 1 3; c 2 9; c 3 3; c 4 12]%Z.
Proof.
  intros c h.
  destruct (theme_clusters_sorted_copy h 7 [c 1 3; c 2 9; c 3 3; c 4 12]%Z eq_refl)
    as (shown & Hc & Hp & _ & Hs & _).
  exists shown. now repeat split.
Defined.

End ThemeClustersFacts.

(** ** The rating bars *)

Section RatingDistributionFacts.
Import RatingDistribution.

Lemma assoc_absent {A} (k : string) (kv : list (string * A)) :
  k ∉ kv.*1 -> assoc k kv = None.
Proof.
  induction kv as [|[k' v] kv IH]; simpl; [reflexivity|].
  intros Hk. apply not_elem_of_cons in Hk as [Hne Hk].
  destruct (String.eqb_spec k k') as [->|_]; [now destruct Hne|].
  now apply IH.
Qed.

Lemma assoc_present {A} (k : string) (v : A) (kv : list (string * A)) :
  NoDup kv.*1 -> (k, v) ∈ kv -> assoc k kv = Some v.
Proof.
  induction kv as [|[k' v'] kv IH]; simpl; intros Hnd Hin.
  - now apply elem_of_nil in Hin.
  - apply NoDup_cons in Hnd as [Hk' Hnd].
    apply elem_of_cons in Hin as [[= -> ->]|Hin].
    + now rewrite String.eqb_refl.
    + destruct (String.eqb_spec k k') as [->|_]; [|now apply IH].
      destruct Hk'. apply list_elem_of_fmap. now exists (k', v).
Qed.

Lemma row_of_shown (distribution : list (string * float)) (total : float)
    (s : Z) :
  let r := (row_of distribution total s).1 in
  (forall v, NoDup distribution.*1 -> (pretty (star r), v) ∈ distribution ->
             count r = v) /\
  (pretty (star r) ∉ distribution.*1 -> count r = 0%float) /\
  pct r = Double.Math_round (count r / total * 100).
Proof.
  unfold row_of, bind, js_div, ret, count_of. simpl.
  split; [|split; [|reflexivity]].
  - intros v Hnd Hin. now rewrite (assoc_present _ v).
  - intros Hk. now rewrite assoc_absent.
Qed.

(** C10, with the percentage as the code computes it. The total is the
    sum of the counts of the record, added from 0 in the order
    [Object.values] lists them. When it is 0 the component shows the
    no-data fallback and divides nothing. Otherwise it shows one row for
    each of the stars 5 down to 1 and divides five times, each time by
    the total: the row of a star shows the count the record holds under
    the star's key, 0 when the record has no such key, and the percentage
    [Math.round((count / total) * 100)], the quotient being rounded to a
    double before it is multiplied. Every division it carries out has a
    divisor other than 0. *)
Theorem rating_distribution_guarded (distribution : list (string * float)) :
  let total := total_of distribution in
  let out := RatingDistribution distribution in
  total = fold_left PrimFloat.add distribution.*2 0%float /\
  ((total =? 0)%float = true -> out = (NoRatings, [])) /\
  ((total =? 0)%float = false ->
   exists rows,
     out = (Bars rows total, [total; total; total; total; total]) /\
     star <$> rows = [5; 4; 3; 2; 1]%Z /\
     Forall (fun r =>
               (forall v, NoDup distribution.*1 ->
                          (pretty (star r), v) ∈ distribution -> count r = v) /\
               (pretty (star r) ∉ distribution.*1 -> count r = 0%float) /\
               pct r = Double.Math_round (count r / total * 100)) rows) /\
  Forall (fun d => (d =? 0)%float = false) out.2.
Proof.
  intros total out. subst total out.
  split; [reflexivity|].
  unfold RatingDistribution.
  destruct (total_of distribution =? 0)%float eqn:E.
  - split; [reflexivity|]. split; [discriminate|]. constructor.
  - split; [discriminate|].
    set (total := total_of distribution) in *.
    split.
    + intros _.
      exists ((fun s => (row_of distribution total s).1) <$> [5; 4; 3; 2; 1]%Z).
      split; [reflexivity|]. split; [reflexivity|].
      apply Forall_fmap, Forall_forall. intros s _.
      apply (row_of_shown distribution total s).
    + simpl. repeat constructor; exact E.
Qed.

Lemma rating_distribution_guarded_witness :
  RatingDistribution [("4", 0%float); ("5", 0%float)] = (NoRatings, [])
  /\ exists rows,
       RatingDistribution [("1", 1%float); ("5", 7%float)]
       = (Bars rows 8%float, [8; 8; 8; 8; 8]%float) /\
       star <$> rows = [5; 4; 3; 2; 1]%Z /\
       count <$> rows = [7; 0; 0; 0; 1]%float /\
       pct <$> rows = [88; 0; 0; 0; 13]%float.
Proof.
  split.
  - apply (rating_distribution_guarded [("4", 0%float); ("5", 0%float)]).
    reflexivity.
  - destruct (proj1 (proj2 (proj2 (rating_distribution_guarded
                [("1", 1%float); ("5", 7%float)]))) eq_refl)
      as (rows & Hout & Hstars & _).
    exists rows. split; [exact Hout|]. split; [exact Hstars|].
    injection Hout as <-. split; reflexivity.
Defined.

(** C10, the percentage of the claim. For a record with 17 reviews of 4
    stars and 23 of 5 stars the component shows 57% in the row of 5
    stars: 23 / 40 rounds to a double just under 0.575, whose product
    with 100 lies under 57.5. The claim's round(100 x count / total) is
    58, in exact arithmetic and in doubles alike. *)
Lemma rating_percent_rounds_the_quotient :
  RatingDistribution [("4", 17%float); ("5", 23%float)]
  = (Bars [ {| star := 5; count := 23; pct := 57 |};
            {| star := 4; count := 17; pct := 43 |};
            {| star := 3; count := 0; pct := 0 |};
            {| star := 2; count := 0; pct := 0 |};
            {| star := 1; count := 0; pct := 0 |} ] 40%float,
     [40; 40; 40; 40; 40]%float)
  /\ Double.Math_round (100 * 23 / 40) = 58%float
  /\ Math_round (100 * 23 / 40)%Q = 58%Z
  /\ 57%float <> 58%float.
Proof.
  repeat split; try reflexivity.
  intros H. assert (E : (57 =? 58)%float = true) by (now rewrite H).
  discriminate E.
Qed.

End RatingDistributionFacts.

(** ** More on the report stream hook *)

Section HookFacts.
Import ReportStream HookActions.

Lemma act_keeps_flags_closed (st : State) (a : Action) :
  (is_open st = true ->
   isComplete st = false /\ isCancelled st = false /\ error st = None) ->
  (is_open (act st a) = true ->
   isComplete (act st a) = false /\ isCancelled (act st a) = false
   /\ error (act st a) = None).
Proof.
  intros Inv. destruct a as [ev|net]; simpl.
  - unfold dispatch. destruct (is_open st) eqn:Hopen; [|now rewrite Hopen].
    destruct (Inv eq_refl) as (Hc & Hx & He).
    destruct ev as [f|].
    + destruct f; simpl;
        try (rewrite is_open_close; discriminate);
        intros _; now repeat split.
    + unfold onerror. rewrite is_open_close. discriminate.
  - destruct net; simpl; unfold is_open; simpl;
      destruct (esRef st); discriminate.
Qed.

Lemma acts_keep_flags_closed (st : State) (l : list Action) :
  (is_open st = true ->
   isComplete st = false /\ isCancelled st = false /\ error st = None) ->
  (is_open (acts st l) = true ->
   isComplete (acts st l) = false /\ isCancelled (acts st l) = false
   /\ error (acts st l) = None).
Proof.
  revert st. induction l as [|a l IH]; intros st Inv; [exact Inv|].
  change (acts st (a :: l)) with (acts (act st a) l).
  apply IH. now apply act_keeps_flags_closed.
Qed.

(** X1. Whatever events arrive and however often cancel is called after
    the hook is mounted, a set completion, cancellation or error flag
    means that the stream has been closed. *)
Theorem hook_flag_means_closed (jobId : string) (l : list Action) :
  let st := acts (mount jobId) l in
  isComplete st = true \/ isCancelled st = true \/ is_Some (error st) ->
  is_open st = false.
Proof.
  intros st H. destruct (is_open st) eqn:Hopen; [|reflexivity].
  destruct (acts_keep_flags_closed (mount jobId) l) as (Hc & Hx & He).
  - intros _. now repeat split.
  - exact Hopen.
  - fold st in Hc, Hx, He. rewrite Hc, Hx, He in H.
    destruct H as [H | [H | [x H]]]; discriminate.
Qed.

Lemma hook_flag_means_closed_witness :
  is_open (acts (mount "job-1")
             [Deliver (Message (FPartial (Some ∅)));
              Cancel FetchRejected;
              Deliver (Message (FComplete None))]) = false.
Proof.
  apply (hook_flag_means_closed "job-1"
           [Deliver (Message (FPartial (Some ∅)));
            Cancel FetchRejected;
            Deliver (Message (FComplete None))]).
  right. left. reflexivity.
Defined.

Lemma act_keeps_complete_xor_error (st : State) (a : Action) :
  (is_open st = true ->
   isComplete st = false /\ isCancelled st = false /\ error st = None) ->
  ~ (isComplete st = true /\ is_Some (error st)) ->
  ~ (isComplete (act st a) = true /\ is_Some (error (act st a))).
Proof.
  intros Inv Hx. destruct a as [ev|net]; simpl.
  - unfold dispatch. destruct (is_open st) eqn:Hopen; [|exact Hx].
    destruct (Inv eq_refl) as (Hc & _ & He).
    destruct ev as [f|].
    + destruct f; simpl; rewrite ?Hc, ?He;
        try (intros [H1 [x H2]]; discriminate); exact Hx.
    + unfold onerror. simpl. rewrite Hc. intros [H1 _]. discriminate.
  - destruct net; exact Hx.
Qed.

(** X2. A job is never shown both complete and failed: whatever events
    arrive and however often cancel is called, a hook that reports
    completion holds no error. *)
Theorem hook_never_complete_and_failed (jobId : string) (l : list Action) :
  isComplete (acts (mount jobId) l) = true ->
  error (acts (mount jobId) l) = None.
Proof.
  assert (H : forall st,
             (is_open st = true ->
              isComplete st = false /\ isCancelled st = false
              /\ error st = None) ->
             ~ (isComplete st = true /\ is_Some (error st)) ->
             ~ (isComplete (acts st l) = true /\ is_Some (error (acts st l)))).
  { induction l as [|a l IH]; intros st Inv Hx; [exact Hx|].
    change (acts st (a :: l)) with (acts (act st a) l).
    apply IH.
    - now apply act_keeps_flags_closed.
    - now apply act_keeps_complete_xor_error. }
  intros Hc. destruct (error (acts (mount jobId) l)) as [e|] eqn:He;
    [|reflexivity].
  exfalso. apply (H (mount jobId)).
  - intros _. now repeat split.
  - intros [H1 _]. discriminate.
  - rewrite He. split; [exact Hc|now eexists].
Qed.

Lemma hook_never_complete_and_failed_witness :
  error (acts (mount "job-1")
           [Deliver (Message (FComplete (Some ∅))); Deliver ConnError;
            Deliver (Message (FError (Some "late")))]) = None.
Proof.
  exact (hook_never_complete_and_failed "job-1"
           [Deliver (Message (FComplete (Some ∅))); Deliver ConnError;
            Deliver (Message (FError (Some "late")))] eq_refl).
Defined.

(** X3. Two partial frames in a row act as one partial frame whose data
    is the second spread over the first. *)
Theorem partial_frames_compose (st : State) (d1 d2 : ReportData) :
  dispatch (dispatch st (Message (FPartial (Some d1))))
           (Message (FPartial (Some d2)))
  = dispatch st (Message (FPartial (Some (d2 ∪ d1)))).
Proof.
  unfold dispatch. destruct (is_open st) eqn:Hopen; simpl.
  - change (is_open (set_report (Some (spread (report st) (Some d1))) st))
      with (is_open st). rewrite Hopen. simpl.
    unfold set_report, spread. simpl. f_equal. f_equal.
    now rewrite (assoc_L (∪)).
  - now rewrite Hopen.
Qed.

(** X4. Frames whose JSON does not parse or whose type is unknown are
    ignored wherever they occur: a run with them equals the run without
    them. *)
Theorem ignorable_frames_dropped (st : State) (evs : list Event) :
  run st evs = run st (List.filter (fun ev => negb (ignorable ev)) evs).
Proof.
  revert st. induction evs as [|ev evs IH]; intros st; [reflexivity|].
  change (run st (ev :: evs)) with (run (dispatch st ev) evs).
  simpl. destruct (ignorable ev) eqn:Hig; simpl.
  - assert (Hst : dispatch st ev = st).
    { unfold dispatch. destruct (is_open st); [|reflexivity].
      destruct ev as [[]|]; simpl in Hig; try discriminate; reflexivity. }
    rewrite Hst. apply IH.
  - change (run st (ev :: ?l)) with (run (dispatch st ev) l). apply IH.
Qed.

Lemma entries_total_steps (fs : list Frame) :
  Forall (fun p => total_steps p <> 0%Z) (entries fs).
Proof.
  induction fs as [|f fs IH]; simpl; [constructor|].
  destruct f; try exact IH.
  constructor; [|exact IH].
  simpl. unfold or_num. destruct tot as [n|]; [|discriminate].
  destruct (n =? 0)%Z eqn:E; [discriminate|]. now apply Z.eqb_neq.
Qed.

(** X5. Every entry of the progress list has a [total_steps] other than
    0: a progress frame received on the open stream is recorded at the
    end of the list with its own [total_steps] when that is a number
    other than 0, and with 8 when it carries none or 0. *)
Theorem progress_total_steps_nonzero (jobId : string) (evs : list Event)
    (st : State) (msg : option string) (stp tot : option Z)
    (tsk sts : option string) :
  Forall (fun p => total_steps p <> 0%Z) (progress (run (mount jobId) evs)) /\
  (is_open st = true ->
   total_steps <$> progress (dispatch st (Message (FProgress msg stp tot tsk sts)))
   = (total_steps <$> progress st)
     ++ [match tot with
         | Some n => if (n =? 0)%Z then 8%Z else n
         | None => 8%Z
         end]).
Proof.
  split.
  - rewrite progress_run. simpl. apply entries_total_steps.
  - intros Hopen. rewrite progress_dispatch. unfold appended.
    rewrite Hopen. simpl. now rewrite fmap_app.
Qed.

Lemma progress_total_steps_nonzero_witness :
  total_steps <$> progress
    (run (mount "job-1")
       [ Message (FProgress (Some "Scraping") (Some 1%Z) (Some 5%Z) None None);
         Message (FProgress None None None None None);
         Message (FProgress None (Some 2%Z) (Some 0%Z) None None) ])
  = [5; 8; 8]%Z.
Proof.
  exact (proj2 (progress_total_steps_nonzero "job-1" []
                  (run (mount "job-1")
                     [ Message (FProgress (Some "Scraping") (Some 1%Z)
                                  (Some 5%Z) None None);
                       Message (FProgress None None None None None) ])
                  None (Some 2%Z) (Some 0%Z) None None) eq_refl).
Defined.





End HookFacts.

(** ** The progress checklists *)

Section ProgressStreamFacts.
Import ReportStream ProgressStream.

Lemma default_last_cons {A} (x0 x : A) (l : list A) :
  default x0 (last (x :: l)) = default x (last l).
Proof. rewrite last_cons. now destruct (last l). Qed.

Lemma fold_apply_entry (t : string) (progress : list ProgressEntry)
    (m : gmap string string) (s0 : string) :
  t <> "" -> t <> "__proto__" -> m !! t = Some s0 ->
  fold_left apply_entry progress m !! t
  = Some (default s0 (last (statuses_for t progress))).
Proof.
  intros Ht Hp. revert m s0.
  induction progress as [|p progress IH]; intros m s0 Hm; simpl; [exact Hm|].
  unfold apply_entry at 2.
  destruct (task p) as [t'|]; [|now apply IH].
  destruct (status p) as [s|]; [|now apply IH].
  destruct (String.eqb t' t) eqn:Et; simpl.
  - apply String.eqb_eq in Et. subst t'.
    assert (Hin : has_in t m = true).
    { unfold has_in. rewrite Hm. now rewrite bool_decide_eq_true_2 by eauto. }
    rewrite Hin. apply String.eqb_neq in Ht. rewrite Ht. simpl.
    destruct (String.eqb s "") eqn:Es; simpl; [now apply IH|].
    rewrite default_last_cons. apply IH.
    unfold assign. apply String.eqb_neq in Hp. rewrite Hp.
    apply lookup_insert_eq.
  - apply String.eqb_neq in Et.
    destruct (negb (String.eqb t' "") && has_in t' m && negb (String.eqb s ""));
      [|now apply IH].
    apply IH. unfold assign. destruct (String.eqb t' "__proto__"); [exact Hm|].
    now rewrite lookup_insert_ne.
Qed.

(** X7. In the task checklist each of the four tasks shows the status of
    the latest progress entry that names the task and carries a status,
    and "pending" when there is none; entries for other tasks, or
    without a status, do not touch it. *)
Theorem task_status_is_latest (progress : list ProgressEntry) :
  Forall (fun tl => taskStatus progress !! tl.1
                    = Some (default "pending"
                              (last (statuses_for tl.1 progress))))
         TASKS.
Proof.
  unfold TASKS, taskStatus.
  repeat constructor; simpl;
    apply fold_apply_entry; try discriminate; reflexivity.
Qed.

End ProgressStreamFacts.

Section StepChecklistFacts.
Import ReportStream StepChecklist.

Lemma fold_max_ge (l : list Z) (a : Z) : (a <= fold_left Z.max l a)%Z.
Proof.
  revert a. induction l as [|x l IH]; intros a; simpl; [lia|].
  specialize (IH (Z.max a x)). lia.
Qed.

Lemma maxStep_snoc (progress : list ProgressEntry) (p q : ProgressEntry) :
  (maxStep (q :: progress) <= maxStep ((q :: progress) ++ [p]))%Z.
Proof.
  simpl. rewrite fmap_app, fold_left_app. simpl. lia.
Qed.

(** X8. In the numbered checklist a step that is done stays done when
    further progress entries arrive, and a step that is not pending has
    every earlier step done, so at most one step is active. *)
Theorem checklist_marks_ordered (progress : list ProgressEntry)
    (p : ProgressEntry) (m i j : Z) :
  ((1 <= i)%Z -> mark (maxStep progress) i = Done ->
     mark (maxStep (progress ++ [p])) i = Done) /\
  ((i < j)%Z -> mark m j <> Pending -> mark m i = Done).
Proof.
  split.
  - intros Hi. unfold mark.
    destruct (i <? maxStep progress)%Z eqn:E.
    + intros _. apply Z.ltb_lt in E.
      destruct progress as [|q progress]; [simpl in E; lia|].
      pose proof (maxStep_snoc progress p q) as Hle.
      assert (Hlt : (i <? maxStep ((q :: progress) ++ [p]))%Z = true)
        by (apply Z.ltb_lt; lia).
      now rewrite Hlt.
    + destruct (maxStep progress =? i)%Z; discriminate.
  - intros Hij. unfold mark.
    destruct (j <? m)%Z eqn:E1.
    + intros _. apply Z.ltb_lt in E1.
      assert (H : (i <? m)%Z = true) by (apply Z.ltb_lt; lia). now rewrite H.
    + destruct (m =? j)%Z eqn:E2; [|intros H; now destruct H].
      intros _. apply Z.eqb_eq in E2.
      assert (H : (i <? m)%Z = true) by (apply Z.ltb_lt; lia). now rewrite H.
Qed.

Lemma checklist_marks_ordered_witness :
  mark (maxStep ([ {| message := "Scraping"; step := 2; total_steps := 8;
                      task := None; status := None |} ]
                 ++ [ {| message := ""; step := 0; total_steps := 8;
                         task := None; status := None |} ])) 1 = Done
  /\ mark 3 2 = Done.
Proof.
  split.
  - apply (checklist_marks_ordered
             [ {| message := "Scraping"; step := 2; total_steps := 8;
                  task := None; status := None |} ]
             {| message := ""; step := 0; total_steps := 8;
                task := None; status := None |} 0 1 1);
      [lia | reflexivity].
  - apply (checklist_marks_ordered [] {| message := ""; step := 0;
             total_steps := 8; task := None; status := None |} 3 2 3);
      [lia | discriminate].
Defined.

End StepChecklistFacts.

(** ** Score colours and stars *)

Section ScoreFacts.
Import ScoreCard.

Lemma Qle_bool_false (x y : Q) : Qle_bool x y = false -> (y < x)%Q.
Proof.
  intros H. apply Qnot_le_lt. intros Hle. apply Qle_bool_iff in Hle. congruence.
Qed.

(** X9. The score is drawn in the same colour by the score card and by
    the verdict callout exactly when it lies outside the bands [4, 5)
    and [6, 6.5). *)
Theorem score_colours_agree (s : Q) :
  scoreColor s = VerdictSection.color (VerdictSection.scoreDesc s)
  <-> ~ ((4 <= s /\ s < 5) \/ (6 <= s /\ s < 65 # 10))%Q.
Proof.
  unfold scoreColor, VerdictSection.scoreDesc.
  destruct (Qle_bool 8 s) eqn:E8; [apply Qle_bool_iff in E8|apply Qle_bool_false in E8];
  destruct (Qle_bool 6 s) eqn:E6; [apply Qle_bool_iff in E6|apply Qle_bool_false in E6| |];
  try (apply Qle_bool_iff in E6); try (apply Qle_bool_false in E6);
  destruct (Qle_bool (65 # 10) s) eqn:E65;
  try (apply Qle_bool_iff in E65); try (apply Qle_bool_false in E65);
  destruct (Qle_bool 5 s) eqn:E5;
  try (apply Qle_bool_iff in E5); try (apply Qle_bool_false in E5);
  destruct (Qle_bool 4 s) eqn:E4;
  try (apply Qle_bool_iff in E4); try (apply Qle_bool_false in E4);
  simpl; split; intros H; try reflexivity; try discriminate;
  try (exfalso; lra); try (intros [[? ?]|[? ?]]; lra);
  try (exfalso; apply H; lra).
Qed.

Lemma score_colours_agree_witness :
  scoreColor 7 = VerdictSection.color (VerdictSection.scoreDesc 7).
Proof.
  apply (score_colours_agree 7).
  intros [[_ H] | [_ H]]; vm_compute in H; discriminate H.
Defined.

Lemma fullStars_half (score : Q) : fullStars score = Qfloor (score / 2).
Proof. unfold fullStars. apply Qfloor_comp. field. Qed.

(** X10. For a score between 0 and 10 the card shows floor(score / 2)
    full stars, then one half star when the remainder is at least one
    half, then empty stars, five stars in all. *)
Theorem star_rating_shape (score : Q) :
  (0 <= score)%Q -> (score <= 10)%Q ->
  (0 <= fullStars score <= 5)%Z /\
  fullStars score = Qfloor (score / 2) /\
  StarRating score
  = take 5 (replicate (Z.to_nat (fullStars score)) Full
            ++ [if hasHalf score then Half else Empty]
            ++ replicate 4 Empty).
Proof.
  intros H0 H10.
  assert (Hb : (0 <= fullStars score <= 5)%Z).
  { unfold fullStars.
    assert (He : (score / 10 * 5 == score * (1 # 2))%Q) by field.
    rewrite (Qfloor_comp _ _ He). split.
    - change 0%Z with (Qfloor 0). apply Qfloor_resp_le. lra.
    - change 5%Z with (Qfloor 5). apply Qfloor_resp_le. lra. }
  split; [exact Hb|]. split; [apply fullStars_half|].
  unfold StarRating.
  assert (Hc : fullStars score = 0%Z \/ fullStars score = 1%Z
               \/ fullStars score = 2%Z \/ fullStars score = 3%Z
               \/ fullStars score = 4%Z \/ fullStars score = 5%Z) by lia.
  destruct Hc as [-> | [-> | [-> | [-> | [-> | ->]]]]];
    destruct (hasHalf score); reflexivity.
Qed.

Lemma star_rating_shape_witness :
  StarRating (76 # 10) = [Full; Full; Full; Half; Empty].
Proof.
  destruct (star_rating_shape (76 # 10)) as (_ & _ & H);
    [discriminate | discriminate |].
  rewrite H. reflexivity.
Defined.

End ScoreFacts.

(** ** Text cut to length *)

Section TextFacts.

(** X11. A review card shows a text of up to 250 code units whole and
    without a toggle; a longer one is shown, while collapsed, as its
    first 250 code units followed by three dots, 253 code units in all
    (more than the text itself when that has 251 or 252), with a "Read
    more" toggle, and whole, with a "Show less" toggle, once expanded. *)
Theorem review_text_display (expanded : bool) (text : CodeUnits) :
  FeaturedReviews.displayText true text = text /\
  length (FeaturedReviews.displayText false text)
  = (if (250 <? length text)%nat then 253%nat else length text) /\
  ((length text <= 250)%nat ->
     FeaturedReviews.displayText expanded text = text
     /\ FeaturedReviews.toggle expanded text = None) /\
  ((250 < length text)%nat ->
     FeaturedReviews.displayText false text
     = take 250 text ++ [46; 46; 46]%N
     /\ FeaturedReviews.toggle false text = Some "Read more"
     /\ FeaturedReviews.toggle true text = Some "Show less").
Proof.
  unfold FeaturedReviews.displayText, FeaturedReviews.toggle,
    FeaturedReviews.isLong.
  split; [reflexivity|]. split; [|split].
  - destruct (250 <? length text)%nat eqn:E; simpl; [|reflexivity].
    apply Nat.ltb_lt in E.
    rewrite length_app, length_take.
    change (length (str "...")) with 3%nat. lia.
  - intros H. assert (E : (250 <? length text)%nat = false)
      by (apply Nat.ltb_ge; lia).
    rewrite E. simpl. now rewrite orb_true_r.
  - intros H. assert (E : (250 <? length text)%nat = true)
      by (apply Nat.ltb_lt; lia).
    rewrite E. simpl. repeat split.
Qed.

Lemma review_text_display_witness :
  FeaturedReviews.displayText false (replicate 130 233%N)
  = replicate 130 233%N
  /\ FeaturedReviews.toggle false (replicate 130 233%N) = None.
Proof.
  apply (review_text_display false (replicate 130 233%N)).
  rewrite length_replicate. lia.
Defined.

(** X12. A theme card shows at most two quotes, each of at most 150
    code units: a quote of up to 150 code units is shown as it is, a
    longer one as its first 147 code units followed by three dots; and
    shortening a shortened quote changes nothing. *)
Theorem theme_quotes_short (c : Cluster) (quote : CodeUnits) :
  length (ThemeClusters.shorten quote) = Nat.min 150 (length quote) /\
  ThemeClusters.shorten quote
  = (if (150 <? length quote)%nat
     then take 147 quote ++ [46; 46; 46]%N else quote) /\
  ThemeClusters.shorten (ThemeClusters.shorten quote)
  = ThemeClusters.shorten quote /\
  ThemeClusters.quotes (ThemeClusters.card_of c)
  = (ThemeClusters.shorten <$> take 2 (top_quotes c)) /\
  (length (ThemeClusters.quotes (ThemeClusters.card_of c)) <= 2)%nat /\
  Forall (fun q => (length q <= 150)%nat)
         (ThemeClusters.quotes (ThemeClusters.card_of c)).
Proof.
  assert (Hlen : forall q, length (ThemeClusters.shorten q)
                           = Nat.min 150 (length q)).
  { intros q. unfold ThemeClusters.shorten.
    destruct (150 <? length q)%nat eqn:E.
    - apply Nat.ltb_lt in E.
      rewrite length_app, length_take.
      change (length (str "...")) with 3%nat. lia.
    - apply Nat.ltb_ge in E. lia. }
  split; [apply Hlen|]. split; [reflexivity|]. split; [|split; [|split]].
  - unfold ThemeClusters.shorten at 1.
    assert (E : (150 <? length (ThemeClusters.shorten quote))%nat = false)
      by (apply Nat.ltb_ge; rewrite Hlen; lia).
    now rewrite E.
  - reflexivity.
  - simpl. rewrite length_fmap, length_take. lia.
  - simpl. apply Forall_fmap, Forall_forall. intros q _. simpl.
    rewrite Hlen. lia.
Qed.

End TextFacts.

(** ** Stability of the theme order *)

Section StabilityFacts.

Lemma sort_insert_stable {A} (cmp : A -> A -> Z) (key : A -> Z) (k : Z)
    (x : A) (l : list A) :
  (forall a b, (0 < cmp a b)%Z -> key a <> key b) ->
  List.filter (fun a => (key a =? k)%Z) (sort_insert cmp x l)
  = List.filter (fun a => (key a =? k)%Z) (x :: l).
Proof.
  intros Hcmp. induction l as [|y l IH]; [reflexivity|].
  simpl. destruct (0 <? cmp x y)%Z eqn:E; [|reflexivity].
  apply Z.ltb_lt, Hcmp in E. simpl. simpl in IH. rewrite IH.
  destruct (key x =? k)%Z eqn:Ex, (key y =? k)%Z eqn:Ey; try reflexivity.
  apply Z.eqb_eq in Ex, Ey. congruence.
Qed.

Lemma js_sort_stable {A} (cmp : A -> A -> Z) (key : A -> Z) (k : Z)
    (l : list A) :
  (forall a b, (0 < cmp a b)%Z -> key a <> key b) ->
  List.filter (fun a => (key a =? k)%Z) (js_sort cmp l)
  = List.filter (fun a => (key a =? k)%Z) l.
Proof.
  intros Hcmp. induction l as [|x l IH]; [reflexivity|].
  simpl. rewrite sort_insert_stable by exact Hcmp.
  simpl. now rewrite IH.
Qed.

(** X13. Themes with the same number of reviews are shown in the order
    in which the report lists them: among the cards, the clusters of any
    one review count keep their input order. *)
Theorem theme_order_stable (h : ThemeClusters.Store) (clusters : nat)
    (arr : list Cluster) (n : Z) :
  h !! clusters = Some arr ->
  exists shown,
    (ThemeClusters.ThemeClusters h clusters).2
    = (ThemeClusters.card_of <$> shown) /\
    List.filter (fun c => (review_count c =? n)%Z) shown
    = List.filter (fun c => (review_count c =? n)%Z) arr.
Proof.
  intros Harr. exists (js_sort ThemeClusters.by_review_count_desc arr).
  split.
  - unfold ThemeClusters.ThemeClusters. simpl.
    rewrite !lookup_insert_eq. simpl. now rewrite Harr.
  - apply js_sort_stable. unfold ThemeClusters.by_review_count_desc.
    intros a b. lia.
Qed.

Lemma theme_order_stable_witness :
  let c := fun (i n : Z) =>
    {| cluster_id := i; theme := "sound"; review_count := n;
       sentiment := ClusterSentiment.positive; top_quotes := [] |} in
  exists shown,
    (ThemeClusters.ThemeClusters {[ 0%nat := [c 1 4; c 2 9; c 3 4]%Z ]} 0).2
    = (ThemeClusters.card_of <$> shown) /\
    List.filter (fun c => (review_count c =? 4)%Z) shown = [c 1 4; c 3 4]%Z.
Proof.
  intros c.
  exact (theme_order_stable {[ 0%nat := [c 1 4; c 2 9; c 3 4]%Z ]} 0
           [c 1 4; c 2 9; c 3 4]%Z 4 eq_refl).
Defined.

End StabilityFacts.

(** ** The home page: search history and the query sent *)

Section HomePageFacts.
Import HomePage.

Lemma filter_all {A} (f : A -> bool) (l : list A) :
  (forall x, In x l -> f x = true) -> List.filter f l = l.
Proof.
  induction l as [|x l IH]; intros H; simpl; [reflexivity|].
  rewrite (H x (or_introl eq_refl)). f_equal. apply IH.
  intros y Hy. apply H. now right.
Qed.

Lemma In_take {A} (n : nat) (l : list A) (x : A) : In x (take n l) -> In x l.
Proof.
  intros H. apply list_elem_of_In. apply list_elem_of_In in H.
  apply elem_of_take in H as (i & Hi & _). now apply list_elem_of_lookup_2 in Hi.
Qed.

(** X14. The updated search history starts with the query just
    submitted, holds at most 15 entries, holds nothing but that query
    and earlier entries, stays free of duplicates when it was, and
    submitting the same query again leaves it as it is. *)
Theorem history_update (trimmed : CodeUnits) (history : list CodeUnits) :
  head (updatedHistory trimmed history) = Some trimmed /\
  (length (updatedHistory trimmed history) <= 15)%nat /\
  (forall x, In x (updatedHistory trimmed history) ->
             x = trimmed \/ In x history) /\
  (NoDup history -> NoDup (updatedHistory trimmed history)) /\
  updatedHistory trimmed (updatedHistory trimmed history)
  = updatedHistory trimmed history.
Proof.
  unfold updatedHistory.
  set (f := List.filter (fun item => negb (bool_decide (item = trimmed))) history).
  assert (Hf : forall x, In x f -> x <> trimmed /\ In x history).
  { intros x Hx. apply filter_In in Hx as [Hin Hne].
    apply negb_true_iff, bool_decide_eq_false in Hne. now split. }
  change (take 15 (trimmed :: f)) with (trimmed :: take 14 f).
  split; [reflexivity|]. split; [|split; [|split]].
  - simpl. rewrite length_take. lia.
  - intros x [<- | Hx]; [now left|]. right. now apply In_take, Hf in Hx.
  - intros Hnd. apply NoDup_cons. split.
    + intros Hin. apply list_elem_of_In, In_take, Hf in Hin. now destruct Hin.
    + apply (sublist_NoDup (take 14 f) f); [|apply sublist_take].
      unfold f. apply NoDup_ListNoDup, List.NoDup_filter.
      now apply NoDup_ListNoDup.
  - cbn [List.filter]. rewrite bool_decide_eq_true_2 by reflexivity.
    cbn [negb]. rewrite filter_all.
    + change (take 15 (trimmed :: take 14 f)) with (trimmed :: take 14 (take 14 f)).
      now rewrite take_take.
    + intros x Hx. apply In_take, Hf in Hx as [Hne _].
      apply negb_true_iff. now apply bool_decide_eq_false.
Qed.

Lemma history_update_witness :
  NoDup (updatedHistory (str "Kindle")
           [str "Sony XM5"; str "Kindle"; str "AirPods"]).
Proof.
  apply (history_update (str "Kindle")
           [str "Sony XM5"; str "Kindle"; str "AirPods"]).
  repeat constructor; rewrite ?elem_of_cons, ?elem_of_nil; intuition discriminate.
Defined.

(** A list that is empty or starts with a code unit that is not white
    space is left alone by [drop_ws]. *)
Lemma drop_ws_head (l : CodeUnits) :
  match drop_ws l with [] => True | c :: _ => is_ws c = false end.
Proof.
  induction l as [|c l IH]; simpl; [exact I|].
  destruct (is_ws c) eqn:E; [exact IH|exact E].
Qed.

Lemma drop_ws_clean (l : CodeUnits) :
  match l with [] => True | c :: _ => is_ws c = false end -> drop_ws l = l.
Proof. destruct l as [|c l]; simpl; [reflexivity|]. now intros ->. Qed.

Lemma drop_ws_snoc (l : CodeUnits) (x : N) :
  is_ws x = false -> exists l', drop_ws (l ++ [x]) = l' ++ [x].
Proof.
  intros Hx. induction l as [|c l IH]; simpl.
  - rewrite Hx. now exists [].
  - destruct (is_ws c); [exact IH|]. now exists (c :: l).
Qed.

Lemma drop_ws_all (l : CodeUnits) :
  drop_ws l = [] <-> Forall (fun c => is_ws c = true) l.
Proof.
  induction l as [|c l IH]; simpl; [split; [constructor|reflexivity]|].
  destruct (is_ws c) eqn:E.
  - rewrite IH. split; [now constructor|]. now inversion 1.
  - split; [discriminate|]. inversion 1; congruence.
Qed.

Lemma trim_ends (l : CodeUnits) :
  match trim l with [] => True | c :: _ => is_ws c = false end
  /\ match rev (trim l) with [] => True | c :: _ => is_ws c = false end.
Proof.
  unfold trim. rewrite rev_involutive. split; [|apply drop_ws_head].
  pose proof (drop_ws_head l) as Ha.
  destruct (drop_ws l) as [|x a]; [exact I|].
  simpl. destruct (drop_ws_snoc (rev a) x Ha) as [l' ->].
  now rewrite rev_unit.
Qed.

Lemma trim_idempotent (s : CodeUnits) : trim (trim s) = trim s.
Proof.
  destruct (trim_ends s) as [H1 H2].
  unfold trim at 1. rewrite (drop_ws_clean _ H1), (drop_ws_clean _ H2).
  now rewrite rev_involutive.
Qed.

Lemma trim_empty (s : CodeUnits) :
  trim s = [] <-> Forall (fun c => is_ws c = true) s.
Proof.
  rewrite <- drop_ws_all. unfold trim. split.
  - intros H. apply (f_equal (@rev N)) in H. rewrite rev_involutive in H.
    simpl in H. apply drop_ws_all in H.
    pose proof (drop_ws_head s) as Hh.
    destruct (drop_ws s) as [|x a]; [reflexivity|].
    apply Forall_forall with (x := x) in H; [congruence|].
    apply list_elem_of_In, in_rev. rewrite rev_involutive. now left.
  - intros ->. reflexivity.
Qed.

(** X15. The home page sends a request exactly when the input is not
    made of white space and line terminators only (tab, LF, VT, FF, CR,
    space, U+00A0, U+1680, U+2000 to U+200A, U+2028, U+2029, U+202F,
    U+205F, U+3000, U+FEFF); the query sent is the trimmed input: it is
    not empty, its first and last code units are not white space, and
    trimming it again changes nothing. An input of white space only
    leaves the page state as it is. *)
Theorem submitted_query_trimmed (st : State) (q : CodeUnits) :
  (Forall (fun c => is_ws c = true) q <-> (handleSubmit st q).2 = None) /\
  (Forall (fun c => is_ws c = true) q -> handleSubmit st q = (st, None)) /\
  (~ Forall (fun c => is_ws c = true) q ->
     (handleSubmit st q).2
     = Some {| ReportPage.query := JStr (trim q); ReportPage.use_cache := true |}
     /\ trim q <> []
     /\ trim (trim q) = trim q
     /\ (forall c, head (trim q) = Some c -> is_ws c = false)
     /\ (forall c, last (trim q) = Some c -> is_ws c = false)) /\
  (forall c, is_ws c = true
             <-> In c [9; 10; 11; 12; 13; 32; 160; 5760; 8192; 8193; 8194;
                       8195; 8196; 8197; 8198; 8199; 8200; 8201; 8202; 8232;
                       8233; 8239; 8287; 12288; 65279]%N).
Proof.
  unfold handleSubmit. rewrite <- trim_empty.
  split; [|split; [|split]].
  - destruct (bool_decide (trim q = [])) eqn:E; simpl.
    + apply bool_decide_eq_true in E. now split.
    + apply bool_decide_eq_false in E. split; [now intros H|discriminate].
  - intros H. now rewrite bool_decide_eq_true_2.
  - intros Hne. rewrite bool_decide_eq_false_2 by exact Hne. simpl.
    split; [reflexivity|]. split; [exact Hne|]. split; [apply trim_idempotent|].
    destruct (trim_ends q) as [H1 H2]. split.
    + intros c Hc. destruct (trim q) as [|c' t]; [discriminate|].
      simpl in Hc. now injection Hc as <-.
    + intros c Hc. apply last_Some in Hc as [l' Hl'].
      rewrite Hl', rev_unit in H2. exact H2.
  - intros c. unfold is_ws.
    rewrite !orb_true_iff, !andb_true_iff, !N.leb_le, !N.eqb_eq.
    simpl. lia.
Qed.

Lemma submitted_query_trimmed_witness :
  (handleSubmit {| loading := false; error := None; searchHistory := [] |}
     (str "  Dyson V15 ")).2
  = Some {| ReportPage.query := JStr (str "Dyson V15");
            ReportPage.use_cache := true |}
  /\ handleSubmit {| loading := false; error := None; searchHistory := [] |}
       [160; 32; 8232]%N
     = ({| loading := false; error := None; searchHistory := [] |}, None).
Proof.
  split.
  - apply (submitted_query_trimmed
             {| loading := false; error := None; searchHistory := [] |}
             (str "  Dyson V15 ")).
    intros H. apply Forall_forall with (x := 68%N) in H; [discriminate|].
    apply list_elem_of_In. right. right. left. reflexivity.
  - apply (submitted_query_trimmed
             {| loading := false; error := None; searchHistory := [] |}
             [160; 32; 8232]%N).
    repeat constructor.
Defined.

End HomePageFacts.

(** ** What the timeline draws *)

Section TimelineDrawFacts.
Import SentimentTimeline.






End TimelineDrawFacts.

(** ** The rating bars computed from the reviews *)

Section RatingBarsFacts.
Import FeaturedReviews RatingDistributionV1.







End RatingBarsFacts.

(** ** The radar chart *)

Section RadarChartFacts.
Import RadarChart.

(** X18. A radar chart that is drawn has at least 2 points. With 3 or
    more radar aspects of more than 3 mentions it shows exactly those;
    otherwise it shows the first 8 aspects of the report as they come,
    whatever their mention counts, so at most 8 points. *)
Theorem radar_chart_points (aspects : list AspectScore) (data : list Point) :
  RadarChart aspects = Chart data ->
  (2 <= length data)%nat /\
  ((3 <= length (filtered aspects))%nat ->
     data = (point_of <$> filtered aspects)) /\
  ((length (filtered aspects) < 3)%nat ->
     data = (point_of <$> take 8 aspects) /\ (length data <= 8)%nat).
Proof.
  unfold RadarChart.
  destruct (length (filtered aspects) <? 3)%nat eqn:E3.
  - apply Nat.ltb_lt in E3.
    assert (E : (3 <=? length (filtered aspects))%nat = false)
      by (apply Nat.leb_gt; lia).
    rewrite E. cbn [andb].
    destruct (length (fallback aspects) <? 2)%nat eqn:E2; [discriminate|].
    apply Nat.ltb_ge in E2. intros [= <-].
    rewrite length_fmap, length_take.
    assert (Hf : (length (fallback aspects) <= length aspects)%nat).
    { unfold fallback. rewrite length_take.
      pose proof (filter_length_le (fun a => (0 <? mention_count a)%Z) aspects).
      lia. }
    split; [lia|]. split; [lia|]. intros _. split; [reflexivity|lia].
  - apply Nat.ltb_ge in E3.
    assert (E : (3 <=? length (filtered aspects))%nat = true)
      by (apply Nat.leb_le; lia).
    rewrite E. cbn [andb]. intros [= <-]. rewrite length_fmap.
    split; [lia|]. split; [reflexivity|lia].
Qed.

Lemma radar_chart_points_witness :
  let a := fun name n =>
    {| aspect := name; sentiment := "positive"; score := 0.75;
       representative_quote := ""; mention_count := n |} in
  let aspects := [a "Battery life" 5%Z; a "design" 1%Z; a "noise" 0%Z] in
  point_of <$> aspects = (point_of <$> take 8 aspects)
  /\ (length (point_of <$> aspects) <= 8)%nat.
Proof.
  intros a aspects.
  apply (radar_chart_points aspects (point_of <$> aspects)).
  - reflexivity.
  - vm_compute. lia.
Defined.

End RadarChartFacts.

(** ** Bounds on the rating percentages

    The bounds are those of the component's arithmetic over exact
    rationals ([RatingDistributionExact]). *)

Section RatingPercentFacts.
Import RatingDistributionExact.










End RatingPercentFacts.

(** ** The page and the timeline together *)

Section PageTimelineFacts.
Import ReportPage.

(** X20. Whenever the report page shows the "Sentiment Over Time"
    section, the monthly series it hands to the timeline has at least 2
    entries, so the timeline draws its chart and never its fallback
    there. *)
Theorem page_timeline_never_fallback (r : ReportData)
    (p : SentimentTimeline.Props) :
  In SentimentOverTimeS (sections_of r) ->
  length (SentimentTimeline.monthly p)
  = length_or_0 (prop "monthly_sentiment" (r !! "drift_report")) ->
  SentimentTimeline.render p <> SentimentTimeline.NotEnoughData.
Proof.
  unfold sections_of, when. intros Hin Hlen.
  destruct (1 <? length_or_0 (prop "monthly_sentiment" (r !! "drift_report")))%nat
    eqn:E.
  - apply Nat.ltb_lt in E. unfold SentimentTimeline.render.
    assert (E2 : (length (SentimentTimeline.monthly p) <? 2)%nat = false)
      by (apply Nat.ltb_ge; lia).
    rewrite E2. discriminate.
  - exfalso. clear -Hin.
    repeat match type of Hin with
           | context [if ?b then _ else _] => destruct b
           end; simpl in Hin; intuition discriminate.
Qed.

Lemma page_timeline_never_fallback_witness :
  SentimentTimeline.render
    {| SentimentTimeline.monthly :=
         [ {| SentimentTimeline.month := "2024-01";
              SentimentTimeline.avg_sentiment := 6 # 10 |};
           {| SentimentTimeline.month := "2024-02";
              SentimentTimeline.avg_sentiment := 4 # 10 |} ];
       SentimentTimeline.changePoints := [];
       SentimentTimeline.trend := SentimentTimeline.declining |}
  <> SentimentTimeline.NotEnoughData.
Proof.
  apply (page_timeline_never_fallback
           {[ "drift_report" :=
                JObj [("monthly_sentiment", JArr [JNull; JNull])] ]}).
  - vm_compute. tauto.
  - reflexivity.
Defined.

End PageTimelineFacts.

(** ** The stopped screen *)

Section StoppedFacts.
Import ReportStream HookActions.

Lemma act_keeps_cancelled (st : State) (a : Action) :
  isCancelled st = true -> isCancelled (act st a) = true.
Proof.
  intros H. destruct a as [ev|net]; simpl.
  - unfold dispatch. destruct (is_open st); [|exact H].
    destruct ev as [f|]; [destruct f|]; simpl; auto.
  - now destruct net.
Qed.

(** X21. Once a job is cancelled, by the user or by a cancelled frame,
    the page shows "Analysis stopped" and keeps showing it whatever
    events arrive or calls are made afterwards. *)
Theorem stopped_screen_is_final
    (renders : ReportPage.PageSection -> ReportData -> bool)
    (st : State) (net : FetchOutcome) (l : list Action) :
  ReportPage.render renders (acts (cancel st net).1 l)
  = ReportPage.AnalysisStopped /\
  (is_open st = true ->
   ReportPage.render renders (acts (dispatch st (Message FCancelled)) l)
   = ReportPage.AnalysisStopped).
Proof.
  assert (H : forall s, isCancelled s = true ->
                        ReportPage.render renders (acts s l)
                        = ReportPage.AnalysisStopped).
  { induction l as [|a l IH]; intros s Hs.
    - unfold ReportPage.render. simpl. now rewrite Hs.
    - change (acts s (a :: l)) with (acts (act s a) l).
      apply IH. now apply act_keeps_cancelled. }
  split.
  - apply H. now destruct net.
  - intros Hopen. apply H. unfold dispatch. now rewrite Hopen.
Qed.

Lemma stopped_screen_is_final_witness :
  ReportPage.render (fun _ _ => false)
    (acts (dispatch (mount "job-1") (Message FCancelled))
          [Deliver (Message (FError (Some "late")));
           Deliver (Message (FComplete (Some ∅)))])
  = ReportPage.AnalysisStopped.
Proof.
  exact (proj2 (stopped_screen_is_final (fun _ _ => false)
                  (mount "job-1") FetchFulfilled
                  [Deliver (Message (FError (Some "late")));
                   Deliver (Message (FComplete (Some ∅)))]) eq_refl).
Defined.

End StoppedFacts.

(** ** Stars of a review and its rating bar *)

Section StarFacts.
Import FeaturedReviews.

(** X22. A review counted in the bar of star [s] (1 to 5) shows exactly
    [s] yellow stars on its card, the yellow ones first; a review without
    a rating shows no stars. *)
Theorem card_stars_match_bar (r : Review) (s : Z) :
  StarDisplay None = None /\
  ((1 <= s <= 5)%Z -> RatingDistributionV1.in_bar s r = true ->
   StarDisplay (rating r)
   = Some (replicate (Z.to_nat s) true ++ replicate (Z.to_nat (5 - s)) false)).
Proof.
  split; [reflexivity|]. intros Hs. unfold RatingDistributionV1.in_bar.
  destruct (rating r) as [q|]; [|discriminate].
  intros E. apply Z.eqb_eq in E. unfold StarDisplay. rewrite E.
  assert (Hc : (s = 1 \/ s = 2 \/ s = 3 \/ s = 4 \/ s = 5)%Z) by lia.
  destruct Hc as [-> | [-> | [-> | [-> | ->]]]]; reflexivity.
Qed.

Lemma card_stars_match_bar_witness :
  StarDisplay (Some (45 # 10)) = Some [true; true; true; true; true].
Proof.
  exact (proj2 (card_stars_match_bar
                  {| id := "b"; source := "reddit"; text := str "fine";
                     rating := Some (45 # 10); date := None;
                     verified_purchase := true; helpful_votes := 2;
                     reviewer_id := None; fake_score := 1 # 10 |} 5)
           ltac:(lia) eq_refl).
Defined.

End StarFacts.
